(** * Star-rating engine of the Stars dashboard (ContractTab)

    Shallow embedding of the rating logic that lives inside the
    [ContractTab] component of the stars page:
    [calcStarFromPerformance], [calcSimulatedWeightedAvg],
    [isOutsideBand], the half-star expression of the "Overall Star Rating"
    row and the "2027" output cell.

    Number model.  A TypeScript [number] is modelled as an exact rational
    ([Q]).  The values the component handles are finite: they come out of
    [res.json()] (JSON has no NaN) or out of [parseFloat] on a numeric input
    field.  The one operation of the code that can leave the finite numbers
    is the division [weightedSum / totalWeight]; it is modelled by the
    partial [JS.div], so that a division by zero is visible in the result.
    Binary64 rounding error is not part of the model: where the exact
    weighted score times 100 falls on a tie, the page may return the other
    of the two nearest hundredths (ratings 4 and 5 with weights 31 and 9
    have the exact score 169/40 = 4.225, returned as 4.23 here and as 4.22
    by binary64 arithmetic); statements about the returned score therefore
    say that it is a hundredth within 0.005 of the weighted score.
    [number | null] is [option Q].  An object used as a map ([simValues]) is
    a [gmap] for the properties it owns; a read of a key it does not own
    falls through to [Object.prototype] ([inheritedProperty]). *)

From Stdlib Require Import QArith Qround Qabs Lqa.
From stdpp Require Import gmap strings list fin_maps pretty.

Local Open Scope Q_scope.

(** ** JavaScript primitives on numbers *)

Module JS.

(** [x <= y], [x >= y], [x > y] on numbers *)
Definition le (x y : Q) : bool := Qle_bool x y.
Definition ge (x y : Q) : bool := Qle_bool y x.
Definition gt (x y : Q) : bool := negb (Qle_bool x y).

(** [x !== y] on two numbers *)
Definition strict_ne (x y : Q) : bool := negb (Qeq_bool x y).

(** truthiness of a number: [0] is falsy *)
Definition truthy (x : Q) : bool := negb (Qeq_bool x 0).

(** [Math.round]: the nearest integer, a tie going towards +infinity *)
Definition Math_round (x : Q) : Q := inject_Z (Qfloor (x + (1 # 2))).

(** [x / y] where [y] is not a constant: finite only when [y] is not zero
    ([x / 0] is an infinity or NaN) *)
Definition div (x y : Q) : option Q :=
  if Qeq_bool y 0 then None else Some (x / y).

End JS.

(** ** Data model (the interfaces of the page) *)

Record ContractYearlyData := {
  value : option Q;
  yearly_star_rating : option Q
}.

Record ContractBandPosition := {
  band_year : Z;
  star_rating : Q
}.

Record ContractCutpoints := {
  cut_2 : option Q;
  cut_3 : option Q;
  cut_4 : option Q;
  cut_5 : option Q
}.

Record ContractMeasureRow := {
  measure_key : string;
  lower_is_better : bool;
  weight : Q;
  in_2026 : bool;
  yearly : gmap string (option ContractYearlyData);
  latest_band : option ContractBandPosition;
  cutpoints : option ContractCutpoints
}.

Record ContractPerformanceData := {
  years : list Z;
  measures : list ContractMeasureRow;
  yearly_weighted_avgs : option (gmap Z (option Q))
}.

(** ** calcStarFromPerformance *)

(** [cut !== null && value <= cut] and [cut !== null && value >= cut] *)
Definition reached (lowerIsBetter : bool) (value : Q) (cut : option Q) : bool :=
  match cut with
  | None => false
  | Some c => if lowerIsBetter then JS.le value c else JS.ge value c
  end.

Definition calcStarFromPerformance
    (value : Q) (cutpoints : option ContractCutpoints) (lowerIsBetter : bool) : Q :=
  match cutpoints with
  | None => 3
  | Some cp =>
    if lowerIsBetter then
      if reached true value (cut_5 cp) then 5
      else if reached true value (cut_4 cp) then 4
      else if reached true value (cut_3 cp) then 3
      else if reached true value (cut_2 cp) then 2
      else 1
    else
      if reached false value (cut_5 cp) then 5
      else if reached false value (cut_4 cp) then 4
      else if reached false value (cut_3 cp) then 3
      else if reached false value (cut_2 cp) then 2
      else 1
  end.

(** ** calcSimulatedWeightedAvg *)

(** [number | null] as returned by the aggregation; [NonFinite] stands for
    the infinities and NaN that a division by zero would produce. *)
Inductive avgResult :=
  | Null
  | Num (q : Q)
  | NonFinite.

(** the three loop variables *)
Record loopState := {
  totalWeight : Q;
  weightedSum : Q;
  hasAnySimValue : bool
}.

Definition loopInit : loopState :=
  {| totalWeight := 0; weightedSum := 0; hasAnySimValue := false |}.

(** [simValues] is a plain object ([useState({})], then [{...prev, [key]: val}]):
    reading a key it does not own falls through to [Object.prototype], whose
    members are functions (and, for [__proto__], an object). *)
Definition objectPrototypeNames : list string :=
  [ "constructor"; "__defineGetter__"; "__defineSetter__"; "hasOwnProperty";
    "__lookupGetter__"; "__lookupSetter__"; "isPrototypeOf"; "propertyIsEnumerable";
    "toString"; "valueOf"; "__proto__"; "toLocaleString" ].

Definition inheritedProperty (key : string) : bool :=
  bool_decide (key ∈ objectPrototypeNames).

(** what [simValues[key]] holds when it is neither undefined nor null: a
    number that was typed, or an inherited member of [Object.prototype] *)
Inductive SimValue :=
  | Typed (v : Q)
  | Inherited.

Coercion Typed : Q >-> SimValue.

(** a number where a value of the field is expected is a typed number *)
Arguments Some {A} & a.

(** [simVal !== undefined && simVal !== null] *)
Definition enteredSimValue (simValues : gmap string (option Q)) (key : string)
    : option SimValue :=
  match simValues !! key with
  | Some (Some simVal) => Some (Typed simVal)
  | Some None => None
  | None => if inheritedProperty key then Some Inherited else None
  end.

(** [calcStarFromPerformance(simVal, cutpoints, lowerIsBetter)]: a function
    or an object converts to NaN in [<=] and [>=], so that every comparison
    is false *)
Definition calcStarOfSimValue (simVal : SimValue)
    (cutpoints : option ContractCutpoints) (lowerIsBetter : bool) : Q :=
  match simVal with
  | Typed v => calcStarFromPerformance v cutpoints lowerIsBetter
  | Inherited =>
    match cutpoints with
    | None => 3
    | Some _ => 1
    end
  end.

(** [m.latest_band?.star_rating], kept when truthy *)
Definition actualStar (m : ContractMeasureRow) : option Q :=
  match latest_band m with
  | Some band => if JS.truthy (star_rating band) then Some (star_rating band) else None
  | None => None
  end.

(** the value of the local [star] at the end of one iteration *)
Definition measureStar (simValues : gmap string (option Q)) (m : ContractMeasureRow) : option Q :=
  match enteredSimValue simValues (measure_key m) with
  | Some simVal => Some (calcStarOfSimValue simVal (cutpoints m) (lower_is_better m))
  | None => actualStar m
  end.

Definition loopBody (simValues : gmap string (option Q))
    (st : loopState) (m : ContractMeasureRow) : loopState :=
  if negb (in_2026 m) then st
  else
    let has := match enteredSimValue simValues (measure_key m) with
               | Some _ => true
               | None => hasAnySimValue st
               end in
    match measureStar simValues m with
    | Some star =>
        {| totalWeight := totalWeight st + weight m;
           weightedSum := weightedSum st + star * weight m;
           hasAnySimValue := has |}
    | None =>
        {| totalWeight := totalWeight st;
           weightedSum := weightedSum st;
           hasAnySimValue := has |}
    end.

Definition runLoop (simValues : gmap string (option Q))
    (ms : list ContractMeasureRow) (st : loopState) : loopState :=
  fold_left (loopBody simValues) ms st.

Definition calcSimulatedWeightedAvg
    (contractData : option ContractPerformanceData)
    (simValues : gmap string (option Q)) : avgResult :=
  match contractData with
  | None => Null
  | Some data =>
    let st := runLoop simValues (measures data) loopInit in
    if negb (hasAnySimValue st) then Null
    else if JS.gt (totalWeight st) 0 then
      match JS.div (weightedSum st) (totalWeight st) with
      | Some q => Num (JS.Math_round (q * 100) / 100)
      | None => NonFinite
      end
    else Null
  end.

(** ** The "Overall Star Rating" row *)

(** [Math.round(avg * 2) / 2] *)
Definition halfStar (avg : Q) : Q := JS.Math_round (avg * 2) / 2.

(** the cell of one year: [yearly_weighted_avgs?.[year] ?? null], then the
    half star when that is not null *)
Definition yearlyHalfStar (data : ContractPerformanceData) (year : Z) : option Q :=
  let avg := match yearly_weighted_avgs data with
             | Some avgs => match avgs !! year with
                            | Some (Some a) => Some a
                            | Some None => None
                            | None => None
                            end
             | None => None
             end in
  match avg with
  | Some a => Some (halfStar a)
  | None => None
  end.

(** the simulated cell: rendered only when [simulatedAvg !== null] *)
Definition simulatedHalfStar (simulatedAvg : avgResult) : avgResult :=
  match simulatedAvg with
  | Null => Null
  | Num a => Num (halfStar a)
  | NonFinite => NonFinite
  end.

(** ** isOutsideBand *)

Definition isOutsideBand (value starRating : Q)
    (cutpoints : option ContractCutpoints) (lowerIsBetter : bool) : bool :=
  match cutpoints with
  | None => false
  | Some _ =>
    let expectedStar := calcStarFromPerformance value cutpoints lowerIsBetter in
    JS.strict_ne expectedStar starRating
  end.

(** ** The band cell of a measure row *)

(** [Math.max(...contractData.years)]; no year, no finite maximum *)
Definition latestYear (data : ContractPerformanceData) : option Z :=
  match years data with
  | [] => None
  | y :: ys => Some (fold_left Z.max ys y)
  end.

(** [measure.yearly[String(latestYear)]?.value], when neither null nor
    undefined *)
Definition latestValue (data : ContractPerformanceData)
    (measure : ContractMeasureRow) : option Q :=
  match latestYear data with
  | None => None
  | Some y =>
    match yearly measure !! pretty y with
    | Some (Some yearData) => value yearData
    | Some None => None
    | None => None
    end
  end.

(** the "adj" badge of the band cell; [None] is the dash shown when the
    measure has no latest band or no cutpoints *)
Definition outsideBand (data : ContractPerformanceData)
    (measure : ContractMeasureRow) : option bool :=
  match latest_band measure, cutpoints measure with
  | Some latestBand, Some _ =>
    match latestValue data measure with
    | Some v =>
        Some (isOutsideBand v (star_rating latestBand)
                (cutpoints measure) (lower_is_better measure))
    | None => Some false
    end
  | _, _ => None
  end.

(** ** The simulation input and output cells of a measure row *)

(** [onChange] of the input: the empty field stores [null] *)
Definition onChangeSimValue (key : string) (val : option Q)
    (prev : gmap string (option Q)) : gmap string (option Q) :=
  <[key := val]> prev.

Inductive simCell :=
  | CellDash
  | CellStar (simStar : Q) (change : option (bool * Q)).

(** the output cell: the simulated star and, when [changed], the arrow
    (up when [simStar > origStar]) with the original star *)
Definition simOutputCell (simValues : gmap string (option Q))
    (measure : ContractMeasureRow) : simCell :=
  match in_2026 measure, cutpoints measure with
  | true, Some _ =>
    match enteredSimValue simValues (measure_key measure) with
    | None => CellDash
    | Some simVal =>
      let simStar :=
        calcStarOfSimValue simVal (cutpoints measure) (lower_is_better measure) in
      match latest_band measure with
      | Some band =>
        let origStar := star_rating band in
        if JS.truthy origStar && JS.strict_ne simStar origStar
        then CellStar simStar (Some (JS.gt simStar origStar, origStar))
        else CellStar simStar None
      | None => CellStar simStar None
      end
    end
  | _, _ => CellDash
  end.

(** the result is the number [q] (as a rational, whatever the fraction) *)
Definition isNum (r : avgResult) (q : Q) : Prop :=
  exists x, r = Num x /\ x == q.

Definition isSomeNum (r : option Q) (q : Q) : Prop :=
  exists x, r = Some x /\ x == q.

(** ** Sample data *)

Definition cp_60_70_80_90 : ContractCutpoints :=
  {| cut_2 := Some 60; cut_3 := Some 70; cut_4 := Some 80; cut_5 := Some 90 |}.

(** a row of the 2026 measure set: latest value, assigned rating, cutpoints *)
Definition row (key : string) (lib : bool) (w : Q) (v : option Q) (star : option Q)
    (cp : option ContractCutpoints) : ContractMeasureRow :=
  {| measure_key := key; lower_is_better := lib; weight := w; in_2026 := true;
     yearly := {[ "2026" := Some {| value := v; yearly_star_rating := star |} ]};
     latest_band := match star with
                    | Some s => Some {| band_year := 2026%Z; star_rating := s |}
                    | None => None
                    end;
     cutpoints := cp |}.

Definition contract (ms : list ContractMeasureRow) : ContractPerformanceData :=
  {| years := [2024%Z; 2025%Z; 2026%Z]; measures := ms; yearly_weighted_avgs := None |}.

(** ** Notions used in the statements *)

(** a threshold is reached: it is not null and the comparison of the
    direction holds *)
Definition reaches (lowerIsBetter : bool) (value : Q) (cut : option Q) : Prop :=
  exists c, cut = Some c /\ if lowerIsBetter then value <= c else c <= value.

(** the rating a row brings into the aggregation: rows outside the 2026
    measure set are passed over, the others bring the local [star] *)
Definition entryRating (simValues : gmap string (option Q))
    (m : ContractMeasureRow) : option Q :=
  if in_2026 m then measureStar simValues m else None.

(** the row is in the 2026 measure set and has a value entered for it *)
Definition simulated (simValues : gmap string (option Q))
    (m : ContractMeasureRow) : bool :=
  in_2026 m && bool_decide (is_Some (enteredSimValue simValues (measure_key m))).

(** sum of the weights of the entries whose rating is not null *)
Fixpoint ratedWeight (simValues : gmap string (option Q))
    (ms : list ContractMeasureRow) : Q :=
  match ms with
  | [] => 0
  | m :: ms' =>
    match entryRating simValues m with
    | Some _ => weight m + ratedWeight simValues ms'
    | None => ratedWeight simValues ms'
    end
  end.

(** sum of rating times weight over the same entries *)
Fixpoint ratedSum (simValues : gmap string (option Q))
    (ms : list ContractMeasureRow) : Q :=
  match ms with
  | [] => 0
  | m :: ms' =>
    match entryRating simValues m with
    | Some star => star * weight m + ratedSum simValues ms'
    | None => ratedSum simValues ms'
    end
  end.

Definition zero_weight_contract : ContractPerformanceData :=
  contract [row "A" false 0 (Some 85) (Some 4) (Some cp_60_70_80_90);
            row "B" false 1 None None (Some cp_60_70_80_90)].


(** Following the spec's words: rounding to the nearest integer, a tie
    going away from zero *)
Definition specRound (x : Q) : Q :=
  if Qle_bool 0 x then inject_Z (Qfloor (x + (1 # 2)))
  else - inject_Z (Qfloor (- x + (1 # 2))).




(** a row of the 2026 measure set is keyed by a name that
    [Object.prototype] does not have *)
Definition ownKeyRow (m : ContractMeasureRow) : Prop :=
  in_2026 m = true -> inheritedProperty (measure_key m) = false.

(** a row keyed by the name of a member of [Object.prototype] *)
Definition inherited_key_row : ContractMeasureRow :=
  row "constructor" false 1 (Some 85) (Some 4) (Some cp_60_70_80_90).

(** a contract whose server-side 2026 average is 4, with one measure *)
Definition one_measure_contract : ContractPerformanceData :=
  {| years := [2026%Z];
     measures := [row "A" false 1 (Some 85) (Some 4) (Some cp_60_70_80_90)];
     yearly_weighted_avgs := Some {[ 2026%Z := Some 4 ]} |}.

(** [n] is the integer nearest to [x], a tie going away from zero *)
Definition roundsHalfAwayFromZero (x : Q) (n : Z) : Prop :=
  Qabs (inject_Z n - x) < 1 # 2 \/
  (Qabs (inject_Z n - x) == 1 # 2 /\ Qabs x <= Qabs (inject_Z n)).

(** [n] is the integer nearest to [x], a tie going up *)
Definition roundsHalfUp (x : Q) (n : Z) : Prop :=
  Qabs (inject_Z n - x) < 1 # 2 \/ inject_Z n - x == 1 # 2.


(** entering the latest value of a row as its simulated value shows the
    assigned rating again, with no change reported (a delta of zero) *)
Definition actualValueKeepsRating (data : ContractPerformanceData)
    (m : ContractMeasureRow) : Prop :=
  forall (simValues : gmap string (option Q)) (v : Q) (band : ContractBandPosition),
    latestValue data m = Some v ->
    latest_band m = Some band ->
    enteredSimValue simValues (measure_key m) = Some v ->
    exists simStar,
      simOutputCell simValues m = CellStar simStar None /\
      simStar - star_rating band == 0.

(** value 88 with assigned rating 5, thresholds 60/70/80/90 *)
Definition adjusted_row : ContractMeasureRow :=
  row "M" false 1 (Some 88) (Some 5) (Some cp_60_70_80_90).

Definition unadjusted_row : ContractMeasureRow :=
  row "M" false 1 (Some 88) (Some 4) (Some cp_60_70_80_90).

(** ** Rounding to integers and the star colours *)

(** [Math.floor] and [Math.ceil] *)
Definition Math_floor (x : Q) : Q := inject_Z (Qfloor x).
Definition Math_ceil (x : Q) : Q := inject_Z (Qceiling x).

(** [rating === n] for a number [rating] and a literal [n] *)
Definition is_number (rating : Q) (n : Q) : bool := Qeq_bool rating n.

Definition starColor (rating : option Q) : string :=
  match rating with
  | None => "text-gray-400"
  | Some r =>
    if is_number r 5 then "text-green-600"
    else if is_number r 4 then "text-blue-600"
    else if is_number r 3 then "text-yellow-600"
    else if is_number r 2 then "text-orange-600"
    else "text-red-600"
  end.

Definition starBgColor (rating : option Q) : string :=
  match rating with
  | None => "bg-gray-100"
  | Some r =>
    if is_number r 5 then "bg-green-100"
    else if is_number r 4 then "bg-blue-100"
    else if is_number r 3 then "bg-yellow-100"
    else if is_number r 2 then "bg-orange-100"
    else "bg-red-100"
  end.

(** the colour of an overall rating: [starColor(Math.ceil(halfStar))] *)
Definition overallStarColor (avg : Q) : string :=
  starColor (Some (Math_ceil (halfStar avg))).

(** a row of the 2026 measure set with a weight that is not negative and,
    if it has an assigned rating, one between 1 and 5 *)
Definition ratedRow (m : ContractMeasureRow) : Prop :=
  in_2026 m = true ->
  0 <= weight m /\
  forall band, latest_band m = Some band -> 1 <= star_rating band <= 5.

(** the rows to which the input field [key] belongs have the direction
    [lib]; the weights of the 2026 rows are not negative *)
Definition fieldRowOf (key : string) (lib : bool) (m : ContractMeasureRow) : Prop :=
  (measure_key m = key -> lower_is_better m = lib) /\
  (in_2026 m = true -> 0 <= weight m).

(** ** getBandRange *)

(** Template literals: [showNumber] stands for the conversion of a number
    to text inside [`${...}`]. *)
Definition getBandRange (showNumber : Q -> string)
    (starRating : Q) (cutpoints : option ContractCutpoints) (lowerIsBetter : bool) : string :=
  match cutpoints with
  | None => ""
  | Some cp =>
    if lowerIsBetter then
      if is_number starRating 5 then
        match cut_5 cp with
        | Some c5 => "≤" +:+ showNumber c5 +:+ "%"
        | None => ""
        end
      else if is_number starRating 4 then
        match cut_5 cp, cut_4 cp with
        | Some c5, Some c4 => ">" +:+ showNumber c5 +:+ "% to ≤" +:+ showNumber c4 +:+ "%"
        | _, _ => ""
        end
      else if is_number starRating 3 then
        match cut_4 cp, cut_3 cp with
        | Some c4, Some c3 => ">" +:+ showNumber c4 +:+ "% to ≤" +:+ showNumber c3 +:+ "%"
        | _, _ => ""
        end
      else if is_number starRating 2 then
        match cut_3 cp, cut_2 cp with
        | Some c3, Some c2 => ">" +:+ showNumber c3 +:+ "% to ≤" +:+ showNumber c2 +:+ "%"
        | _, _ => ""
        end
      else
        match cut_2 cp with
        | Some c2 => ">" +:+ showNumber c2 +:+ "%"
        | None => ""
        end
    else
      if is_number starRating 5 then
        match cut_5 cp with
        | Some c5 => "≥" +:+ showNumber c5 +:+ "%"
        | None => ""
        end
      else if is_number starRating 4 then
        match cut_4 cp, cut_5 cp with
        | Some c4, Some c5 => "≥" +:+ showNumber c4 +:+ "% to <" +:+ showNumber c5 +:+ "%"
        | _, _ => ""
        end
      else if is_number starRating 3 then
        match cut_3 cp, cut_4 cp with
        | Some c3, Some c4 => "≥" +:+ showNumber c3 +:+ "% to <" +:+ showNumber c4 +:+ "%"
        | _, _ => ""
        end
      else if is_number starRating 2 then
        match cut_2 cp, cut_3 cp with
        | Some c2, Some c3 => "≥" +:+ showNumber c2 +:+ "% to <" +:+ showNumber c3 +:+ "%"
        | _, _ => ""
        end
      else
        match cut_2 cp with
        | Some c2 => "<" +:+ showNumber c2 +:+ "%"
        | None => ""
        end
  end.

(** what a band text says: one bound, or a lower and an upper one *)
Inductive bound :=
  | AtMost (c : Q)
  | MoreThan (c : Q)
  | AtLeast (c : Q)
  | LessThan (c : Q).

Definition showBound (showNumber : Q -> string) (b : bound) : string :=
  match b with
  | AtMost c => "≤" +:+ showNumber c +:+ "%"
  | MoreThan c => ">" +:+ showNumber c +:+ "%"
  | AtLeast c => "≥" +:+ showNumber c +:+ "%"
  | LessThan c => "<" +:+ showNumber c +:+ "%"
  end.

Definition showBounds (showNumber : Q -> string) (bs : list bound) : string :=
  match bs with
  | [] => ""
  | [b] => showBound showNumber b
  | b1 :: b2 :: _ => showBound showNumber b1 +:+ " to " +:+ showBound showNumber b2
  end.

Definition meets (v : Q) (b : bound) : Prop :=
  match b with
  | AtMost c => v <= c
  | MoreThan c => c < v
  | AtLeast c => c <= v
  | LessThan c => v < c
  end.

(** the bounds of the rating [k] (5 down to 2, anything else counts as 1) *)
Definition tierBounds (k : nat) (cp : ContractCutpoints) (lowerIsBetter : bool) : list bound :=
  let both (first second : option bound) :=
    match first, second with
    | Some b1, Some b2 => [b1; b2]
    | _, _ => []
    end in
  let one (b : option bound) := match b with Some b1 => [b1] | None => [] end in
  if lowerIsBetter then
    match k with
    | 5%nat => one (AtMost <$> cut_5 cp)
    | 4%nat => both (MoreThan <$> cut_5 cp) (AtMost <$> cut_4 cp)
    | 3%nat => both (MoreThan <$> cut_4 cp) (AtMost <$> cut_3 cp)
    | 2%nat => both (MoreThan <$> cut_3 cp) (AtMost <$> cut_2 cp)
    | _ => one (MoreThan <$> cut_2 cp)
    end
  else
    match k with
    | 5%nat => one (AtLeast <$> cut_5 cp)
    | 4%nat => both (AtLeast <$> cut_4 cp) (LessThan <$> cut_5 cp)
    | 3%nat => both (AtLeast <$> cut_3 cp) (LessThan <$> cut_4 cp)
    | 2%nat => both (AtLeast <$> cut_2 cp) (LessThan <$> cut_3 cp)
    | _ => one (LessThan <$> cut_2 cp)
    end.

(** the branch of [getBandRange] a rating takes *)
Definition tierOf (starRating : Q) : nat :=
  if is_number starRating 5 then 5
  else if is_number starRating 4 then 4
  else if is_number starRating 3 then 3
  else if is_number starRating 2 then 2
  else 1.

Definition bandBounds (starRating : Q) (cutpoints : option ContractCutpoints)
    (lowerIsBetter : bool) : list bound :=
  match cutpoints with
  | None => []
  | Some cp => tierBounds (tierOf starRating) cp lowerIsBetter
  end.

(** all four thresholds are present and ordered in the direction of the
    measure *)
Definition orderedCutpoints (lowerIsBetter : bool) (cp : ContractCutpoints) : Prop :=
  exists c2 c3 c4 c5,
    cut_2 cp = Some c2 /\ cut_3 cp = Some c3 /\ cut_4 cp = Some c4 /\ cut_5 cp = Some c5 /\
    if lowerIsBetter then c5 <= c4 /\ c4 <= c3 /\ c3 <= c2
    else c2 <= c3 /\ c3 <= c4 /\ c4 <= c5.

(** ** The cutpoint chart of a measure (MeasureRowChart) *)

Module Chart.

Record CutpointYearData := {
  cut_5_num : option Q;
  cut_4_num : option Q;
  cut_3_num : option Q;
  cut_2_num : option Q
}.

Record CutpointsMeasure := {
  lower_is_better : bool;
  years_active : list Z;
  yearly : gmap string CutpointYearData
}.

(** [starLevel: 2 | 3 | 4 | 5] *)
Inductive StarLevel := Level2 | Level3 | Level4 | Level5.

(** [yearData[`cut_${starLevel}_num`]] *)
Definition cutKey (starLevel : StarLevel) (yearData : CutpointYearData) : option Q :=
  match starLevel with
  | Level2 => cut_2_num yearData
  | Level3 => cut_3_num yearData
  | Level4 => cut_4_num yearData
  | Level5 => cut_5_num yearData
  end.

(** one point per year: [yearData?.[cutKey] ?? null] *)
Definition chartData (measure : CutpointsMeasure) (starLevel : StarLevel)
    (years : list Z) : list (Z * option Q) :=
  map (fun year =>
         (year, match yearly measure !! pretty year with
                | Some yearData => cutKey starLevel yearData
                | None => None
                end)) years.

Definition hasData (points : list (Z * option Q)) : bool :=
  existsb (fun d => bool_decide (is_Some (snd d))) points.

(** the values that are not null *)
Definition values (points : list (Z * option Q)) : list Q :=
  omap snd points.

Definition min2 (a b : Q) : Q := if Qle_bool a b then a else b.
Definition max2 (a b : Q) : Q := if Qle_bool a b then b else a.

(** [values.length > 0 ? Math.min(...values) : 0] *)
Definition minVal (vs : list Q) : Q :=
  match vs with
  | [] => 0
  | v :: vs' => fold_left min2 vs' v
  end.

(** [values.length > 0 ? Math.max(...values) : 100] *)
Definition maxVal (vs : list Q) : Q :=
  match vs with
  | [] => 100
  | v :: vs' => fold_left max2 vs' v
  end.

(** [maxVal - minVal || 10] *)
Definition range (vs : list Q) : Q :=
  let d := maxVal vs - minVal vs in
  if JS.truthy d then d else 10.

Definition padding (vs : list Q) : Q := range vs * (15 # 100).

(** the [domain] of the Y axis, inverted when lower is better *)
Definition yDomain (measure : CutpointsMeasure) (vs : list Q) : Q * Q :=
  if lower_is_better measure
  then (Math_ceil (maxVal vs + padding vs), Math_floor (minVal vs - padding vs))
  else (Math_floor (minVal vs - padding vs), Math_ceil (maxVal vs + padding vs)).

(** the chart area: the line chart, with its Y axis, is built only when
    some point has a value; otherwise the text "No cutpoint data available"
    stands in its place and no axis exists *)
Inductive ChartArea :=
| NoCutpointData
| LineChart (domain : Q * Q).

Definition chartArea (measure : CutpointsMeasure) (points : list (Z * option Q))
    : ChartArea :=
  if hasData points then LineChart (yDomain measure (values points))
  else NoCutpointData.

(** the 4-star-and-above enrollment of a measure, one entry per year *)
Record MeasureEnrollmentTimeseries := {
  years : list Z;
  fourplus_pct : list Q;
  fourplus_enrollment : list Q
}.

(** [arr.indexOf(x)]: the first position of [x], or -1 *)
Fixpoint indexOf (arr : list Z) (x : Z) : Z :=
  match arr with
  | [] => -1
  | y :: arr' =>
    if (y =? x)%Z then 0
    else let i := indexOf arr' x in if (i <? 0)%Z then -1 else i + 1
  end%Z.

(** the cell of [year] in the enrollment row: the percentage and, when
    there is one, the enrollment count; [None] is the dash *)
Definition enrollmentCell (enrollmentData : option MeasureEnrollmentTimeseries)
    (year : Z) : option (Q * option Q) :=
  match enrollmentData with
  | None => None
  | Some data =>
    let yearIdx := indexOf (years data) year in
    if (0 <=? yearIdx)%Z then
      match fourplus_pct data !! Z.to_nat yearIdx with
      | Some pct => Some (pct, fourplus_enrollment data !! Z.to_nat yearIdx)
      | None => None
      end
    else None
  end.

(** the percentage shown for a year, if any *)
Definition pctOf (data : MeasureEnrollmentTimeseries) (year : Z) : option Q :=
  fst <$> enrollmentCell (Some data) year.

Definition sample_enrollment : MeasureEnrollmentTimeseries :=
  {| years := [2023%Z; 2024%Z; 2025%Z];
     fourplus_pct := [61; 64; 58];
     fourplus_enrollment := [1200; 1350; 1275] |}.

Definition sample_measure : CutpointsMeasure :=
  {| lower_is_better := true;
     years_active := [2024%Z; 2025%Z];
     yearly := {[ "2024" := {| cut_5_num := Some 7; cut_4_num := Some 9;
                               cut_3_num := Some 10; cut_2_num := Some 12 |};
                  "2025" := {| cut_5_num := Some 6; cut_4_num := Some 8;
                               cut_3_num := Some 10; cut_2_num := None |} ]} |}.

End Chart.

(** ** The year cells of the measure performance table *)

Module Perf.

Record MeasurePerformanceYearData := {
  value : option Q;
  contract_count : Q;
  enrollment : Q
}.

Record MeasurePerformanceRow := {
  lower_is_better : bool;
  yearly : gmap string (option MeasurePerformanceYearData)
}.

Inductive Colour := Gray | Green | Red.

(** the small change line under a value: its colour, whether a [+] is
    put in front, and the change itself *)
Record Badge := {
  colour : Colour;
  plus : bool;
  change : Q
}.

Inductive Cell :=
  | Dash
  | Value (v : Q) (badge : option Badge).

(** [measure.yearly[String(year)]?.value], when neither null nor undefined *)
Definition valueOf (measure : MeasurePerformanceRow) (year : Z) : option Q :=
  match yearly measure !! pretty year with
  | Some (Some yearData) => value yearData
  | Some None => None
  | None => None
  end.

(** [years[yearIdx - 1]] *)
Definition prevYear (years : list Z) (yearIdx : nat) : option Z :=
  match yearIdx with
  | O => None
  | S i => years !! i
  end.

(** [prevYear ? measure.yearly[String(prevYear)] : null], then [?.value] *)
Definition prevValue (measure : MeasurePerformanceRow)
    (years : list Z) (yearIdx : nat) : option Q :=
  match prevYear years yearIdx with
  | Some y => if (y =? 0)%Z then None else valueOf measure y
  | None => None
  end.

Definition yoyBadge (lowerIsBetter : bool) (yoyChange : Q) : option Badge :=
  let isImprovement :=
    if lowerIsBetter then JS.gt 0 yoyChange else JS.gt yoyChange 0 in
  if JS.ge (Qabs yoyChange) (5 # 100) then
    Some {| colour := if JS.gt (1 # 10) (Qabs yoyChange) then Gray
                      else if isImprovement then Green else Red;
            plus := JS.gt yoyChange 0;
            change := yoyChange |}
  else None.

(** the cell of the column [yearIdx] showing [year] *)
Definition yearCell (measure : MeasurePerformanceRow)
    (years : list Z) (yearIdx : nat) (year : Z) : Cell :=
  match valueOf measure year with
  | None => Dash
  | Some v =>
    match prevValue measure years yearIdx with
    | Some pv => Value v (yoyBadge (lower_is_better measure) (v - pv))
    | None => Value v None
    end
  end.

(** [years.map((year, yearIdx) => ...)] *)
Definition yearCells (measure : MeasurePerformanceRow) (years : list Z) : list Cell :=
  imap (fun yearIdx year => yearCell measure years yearIdx year) years.

Definition flipColour (c : Colour) : Colour :=
  match c with
  | Gray => Gray
  | Green => Red
  | Red => Green
  end.

Definition flipBadge (b : Badge) : Badge :=
  {| colour := flipColour (colour b); plus := plus b; change := change b |}.

Definition flipCell (c : Cell) : Cell :=
  match c with
  | Dash => Dash
  | Value v b => Value v (flipBadge <$> b)
  end.

Definition flipDirection (measure : MeasurePerformanceRow) : MeasurePerformanceRow :=
  {| lower_is_better := negb (lower_is_better measure); yearly := yearly measure |}.

Definition sample_row : MeasurePerformanceRow :=
  {| lower_is_better := true;
     yearly := {[ "2024" := Some {| value := Some (105 # 10); contract_count := 12;
                                    enrollment := 3400 |};
                  "2025" := Some {| value := Some (98 # 10); contract_count := 12;
                                    enrollment := 3500 |} ]} |}.

End Perf.

(** ** Array and string primitives *)

(** [arr[idx]] for an integer index: nothing outside the array *)
Definition at_index {A : Type} (arr : list A) (idx : Z) : option A :=
  if (idx <? 0)%Z then None else arr !! Z.to_nat idx.

(** [arr.slice(-n)] for an integer [n]: the start [-n] counts from the end
    when negative and is clamped to the array *)
Definition slice_from_end {A : Type} (n : Z) (arr : list A) : list A :=
  let len := Z.of_nat (length arr) in
  let start := (- n)%Z in
  let k := if (start <? 0)%Z then Z.max (len + start) 0 else Z.min start len in
  drop (Z.to_nat k) arr.

(** [s.includes(sub)] *)
Definition includes (s sub : string) : bool :=
  match String.index 0 sub s with
  | Some _ => true
  | None => false
  end.

(** lower case of the letters A to Z, an instance of [toLowerCase] *)
Definition asciiLower (s : string) : string :=
  String.string_of_list_ascii
    (map (fun c => let n := Ascii.nat_of_ascii c in
                   if (65 <=? n)%nat && (n <=? 90)%nat
                   then Ascii.ascii_of_nat (n + 32) else c)
         (String.list_ascii_of_string s)).

(** ** The contract selector of the contract tab *)

Module Selector.

Record ContractListItem := {
  contract_id : string;
  parent_org : option string;
  enrollment : Q
}.

(** [toLowerCase] is the conversion of the JavaScript runtime *)
Definition matchesSearch (toLowerCase : string -> string)
    (contractSearch : string) (c : ContractListItem) : bool :=
  includes (toLowerCase (contract_id c)) (toLowerCase contractSearch)
  || match parent_org c with
     | Some org => includes (toLowerCase org) (toLowerCase contractSearch)
     | None => false
     end.

Definition filteredContracts (toLowerCase : string -> string)
    (contracts : list ContractListItem) (contractSearch : string) : list ContractListItem :=
  filter (fun c => matchesSearch toLowerCase contractSearch c = true)
    (filter (fun c => String.prefix "S" (contract_id c) = false) contracts).

(** the entries of the dropdown: [filteredContracts.slice(0, 100)] *)
Definition shownContracts (toLowerCase : string -> string)
    (contracts : list ContractListItem) (contractSearch : string) : list ContractListItem :=
  take 100 (filteredContracts toLowerCase contracts contractSearch).

Definition sample_contracts : list ContractListItem :=
  [ {| contract_id := "H5216"; parent_org := Some "Humana Inc."; enrollment := 1200 |};
    {| contract_id := "S5601"; parent_org := Some "CVS Health"; enrollment := 900 |};
    {| contract_id := "R5826"; parent_org := None; enrollment := 40 |} ].

End Selector.

(** ** The stars page: payer selection and year range *)

Module Stars.

(** the state of the distribution table that the payer popup works on *)
Record PayerState := {
  selectedPayers : list string;
  showPayerPopup : bool;
  payerSearch : string
}.

Definition addPayer (payer : string) (st : PayerState) : PayerState :=
  {| selectedPayers := selectedPayers st ++ [payer];
     showPayerPopup := false;
     payerSearch := "" |}.

Definition removePayer (payer : string) (st : PayerState) : PayerState :=
  {| selectedPayers := filter (fun p => p <> payer) (selectedPayers st);
     showPayerPopup := showPayerPopup st;
     payerSearch := payerSearch st |}.

(** [filterOptions?.parent_orgs?.filter(...).slice(0, payerSearch ? 30 : 15) || []] *)
Definition filteredPayers (toLowerCase : string -> string)
    (parent_orgs : option (list string)) (st : PayerState) : list string :=
  match parent_orgs with
  | None => []
  | Some orgs =>
    take (if decide (payerSearch st = "") then 15 else 30)%nat
      (filter (fun p => includes (toLowerCase p) (toLowerCase (payerSearch st)) = true
                        /\ p ∉ selectedPayers st) orgs)
  end.

(** [distTimeYearRange ? distTimeYears.slice(-distTimeYearRange) : distTimeYears] *)
Definition filteredDistTimeYears (distTimeYearRange : option Z)
    (distTimeYears : list Z) : list Z :=
  match distTimeYearRange with
  | Some n => if (n =? 0)%Z then distTimeYears else slice_from_end n distTimeYears
  | None => distTimeYears
  end.

(** [distTimeYearRange ? Math.max(0, distTimeYears.length - distTimeYearRange) : 0] *)
Definition distTimeStartIdx (distTimeYearRange : option Z) (distTimeYears : list Z) : Z :=
  match distTimeYearRange with
  | Some n => if (n =? 0)%Z then 0
              else Z.max 0 (Z.of_nat (length distTimeYears) - n)
  | None => 0
  end.

(** [distTimeData?.distribution?.[bandKey]?.[idx]] *)
Definition distributionAt (distribution : option (gmap string (list Q)))
    (bandKey : string) (idx : Z) : option Q :=
  match distribution with
  | Some d => match d !! bandKey with
              | Some series => at_index series idx
              | None => None
              end
  | None => None
  end.

(** one row of the table: for the column [i] of [year], the entry
    [distTimeStartIdx + i] of the series of the band *)
Definition distributionRow (distribution : option (gmap string (list Q)))
    (bandKey : string) (distTimeYearRange : option Z) (distTimeYears : list Z)
    : list (Z * option Q) :=
  imap (fun i year =>
          (year, distributionAt distribution bandKey
                   (distTimeStartIdx distTimeYearRange distTimeYears + Z.of_nat i)))
       (filteredDistTimeYears distTimeYearRange distTimeYears).

End Stars.

(** * Properties *)

(** ** Sample evaluations *)

Example star_80 : calcStarFromPerformance 80 (Some cp_60_70_80_90) false = 4.
Proof. reflexivity. Qed.

Example star_90 : calcStarFromPerformance 90 (Some cp_60_70_80_90) false = 5.
Proof. reflexivity. Qed.

Example latest_value_88 :
  latestValue (contract []) (row "M" false 1 (Some 88) (Some 5) (Some cp_60_70_80_90))
  = Some 88.
Proof. vm_compute. reflexivity. Qed.

(** ** Comparisons *)

Lemma JS_le_iff x y : JS.le x y = true <-> x <= y.
Proof. apply Qle_bool_iff. Qed.

Lemma JS_ge_iff x y : JS.ge x y = true <-> y <= x.
Proof. apply Qle_bool_iff. Qed.

Lemma JS_gt_iff x y : JS.gt x y = true <-> y < x.
Proof.
  unfold JS.gt. rewrite negb_true_iff. split.
  - intros H. apply Qnot_le_lt. intros Hle.
    apply Qle_bool_iff in Hle. congruence.
  - intros H. destruct (Qle_bool x y) eqn:E; [|reflexivity].
    apply Qle_bool_iff in E. lra.
Qed.

Lemma JS_strict_ne_iff x y : JS.strict_ne x y = true <-> ~ x == y.
Proof.
  unfold JS.strict_ne. rewrite negb_true_iff. split.
  - intros H Heq. apply Qeq_bool_iff in Heq. congruence.
  - intros H. destruct (Qeq_bool x y) eqn:E; [|reflexivity].
    apply Qeq_bool_iff in E. contradiction.
Qed.

Lemma reached_iff lib value cut :
  reached lib value cut = true <-> reaches lib value cut.
Proof.
  unfold reached, reaches. destruct cut as [c|].
  - destruct lib.
    + rewrite JS_le_iff. split; [eauto|]. intros (c' & [= <-] & H). exact H.
    + rewrite JS_ge_iff. split; [eauto|]. intros (c' & [= <-] & H). exact H.
  - split; [discriminate|]. intros (c' & [=] & _).
Qed.

Lemma reached_false_iff lib value cut :
  reached lib value cut = false <-> ~ reaches lib value cut.
Proof.
  rewrite <- reached_iff. destruct (reached lib value cut); split; congruence.
Qed.

Lemma reached_self lib c : reached lib c (Some c) = true.
Proof. apply reached_iff. exists c. split; [reflexivity|]. destruct lib; lra. Qed.

(** the chain of [calcStarFromPerformance], whatever the direction *)
Lemma calcStar_chain value cp lib :
  calcStarFromPerformance value (Some cp) lib =
    if reached lib value (cut_5 cp) then 5
    else if reached lib value (cut_4 cp) then 4
    else if reached lib value (cut_3 cp) then 3
    else if reached lib value (cut_2 cp) then 2
    else 1.
Proof. destruct lib; reflexivity. Qed.

Lemma calcStar_range value cps lib :
  let s := calcStarFromPerformance value cps lib in
  s = 1 \/ s = 2 \/ s = 3 \/ s = 4 \/ s = 5.
Proof.
  destruct cps as [cp|]; simpl; [|tauto].
  destruct lib;
    repeat match goal with |- context [reached ?l ?v ?c] => destruct (reached l v c) end;
    tauto.
Qed.

Ltac split_reached :=
  repeat match goal with
         | |- context [reached ?l ?v ?c] =>
             let E := fresh "E" in destruct (reached l v c) eqn:E
         end;
  repeat match goal with
         | H : reached _ _ _ = true |- _ => apply reached_iff in H
         | H : reached _ _ _ = false |- _ => apply reached_false_iff in H
         end.

(** C1: the classifier tests the thresholds from the top down, with [>=]
    when higher is better and [<=] when lower is better; a null threshold
    is never reached; a value equal to a threshold earns at least the
    rating of that threshold, and a value equal to [cut_5] earns 5 in both
    directions. *)
Theorem calcStar_top_down (value : Q) (cp : ContractCutpoints) (lib : bool) :
  let star := calcStarFromPerformance value (Some cp) lib in
  let r5 := reaches lib value (cut_5 cp) in
  let r4 := reaches lib value (cut_4 cp) in
  let r3 := reaches lib value (cut_3 cp) in
  let r2 := reaches lib value (cut_2 cp) in
  (star = 5 <-> r5) /\
  (star = 4 <-> ~ r5 /\ r4) /\
  (star = 3 <-> ~ r5 /\ ~ r4 /\ r3) /\
  (star = 2 <-> ~ r5 /\ ~ r4 /\ ~ r3 /\ r2) /\
  (star = 1 <-> ~ r5 /\ ~ r4 /\ ~ r3 /\ ~ r2) /\
  (forall k, k = None -> ~ reaches lib value k) /\
  (cut_5 cp = Some value -> star = 5) /\
  (cut_4 cp = Some value -> 4 <= star) /\
  (cut_3 cp = Some value -> 3 <= star) /\
  (cut_2 cp = Some value -> 2 <= star).
Proof.
  cbv zeta. rewrite calcStar_chain.
  assert (Hnull : forall k, k = None -> ~ reaches lib value k)
    by (intros k -> (c & [=] & _)).
  repeat apply conj; try exact Hnull.
  all: try (intros ->; rewrite ?reached_self;
            repeat match goal with
                   | |- context [reached ?l ?v ?c] => destruct (reached l v c)
                   end; (reflexivity || (unfold Qle; simpl; lia))).
  all: split_reached; intros;
    repeat match goal with H : _ /\ _ |- _ => destruct H end;
    try discriminate; try tauto.
Qed.

Lemma calcStar_top_down_witness :
  calcStarFromPerformance 90 (Some cp_60_70_80_90) false = 5 /\
  calcStarFromPerformance 7 (Some {| cut_2 := Some 12; cut_3 := Some 10;
                                     cut_4 := Some 9; cut_5 := Some 7 |}) true = 5.
Proof.
  split.
  - apply (calcStar_top_down 90 cp_60_70_80_90 false). reflexivity.
  - apply (calcStar_top_down 7 {| cut_2 := Some 12; cut_3 := Some 10;
                                  cut_4 := Some 9; cut_5 := Some 7 |} true).
    reflexivity.
Defined.

(** C3: without a cutpoints object the classifier returns the default 3,
    for every value and direction (the function is total: nothing is
    thrown). *)
Theorem calcStar_missing_cutpoints (value : Q) (lib : bool) :
  calcStarFromPerformance value None lib = 3.
Proof. reflexivity. Qed.

(** C10: a cutpoints object whose four thresholds are all null gives 1 for
    every value in both directions; the default 3 is what the absent object
    gives. *)
Theorem calcStar_all_null_thresholds (value : Q) (lib : bool) :
  calcStarFromPerformance value
    (Some {| cut_2 := None; cut_3 := None; cut_4 := None; cut_5 := None |}) lib = 1
  /\ calcStarFromPerformance value None lib = 3.
Proof. destruct lib; split; reflexivity. Qed.

(** ** Monotonicity of the classifier *)

(** a threshold reached by a value is reached by every value that is at
    least as good *)
Lemma reached_better (lib : bool) (v1 v2 : Q) (cut : option Q) :
  (if lib then v2 <= v1 else v1 <= v2) ->
  reached lib v1 cut = true -> reached lib v2 cut = true.
Proof.
  intros Hv H. apply reached_iff in H. apply reached_iff.
  destruct H as (c & -> & Hc). exists c. split; [reflexivity|].
  destruct lib; lra.
Qed.

Lemma calcStar_better (lib : bool) (v1 v2 : Q) (cps : option ContractCutpoints) :
  (if lib then v2 <= v1 else v1 <= v2) ->
  calcStarFromPerformance v1 cps lib <= calcStarFromPerformance v2 cps lib.
Proof.
  intros Hv. destruct cps as [cp|]; [|simpl; lra].
  rewrite !calcStar_chain.
  pose proof (reached_better lib v1 v2 (cut_5 cp) Hv) as H5.
  pose proof (reached_better lib v1 v2 (cut_4 cp) Hv) as H4.
  pose proof (reached_better lib v1 v2 (cut_3 cp) Hv) as H3.
  pose proof (reached_better lib v1 v2 (cut_2 cp) Hv) as H2.
  destruct (reached lib v1 (cut_5 cp)); [rewrite H5 by reflexivity; lra|].
  destruct (reached lib v2 (cut_5 cp));
    [repeat match goal with
            | |- context [reached ?l ?v ?c] => destruct (reached l v c)
            end; lra|].
  destruct (reached lib v1 (cut_4 cp)); [rewrite H4 by reflexivity; lra|].
  destruct (reached lib v2 (cut_4 cp));
    [repeat match goal with
            | |- context [reached ?l ?v ?c] => destruct (reached l v c)
            end; lra|].
  destruct (reached lib v1 (cut_3 cp)); [rewrite H3 by reflexivity; lra|].
  destruct (reached lib v2 (cut_3 cp));
    [repeat match goal with
            | |- context [reached ?l ?v ?c] => destruct (reached l v c)
            end; lra|].
  destruct (reached lib v1 (cut_2 cp)); [rewrite H2 by reflexivity; lra|].
  destruct (reached lib v2 (cut_2 cp)); lra.
Qed.

(** C6: for fixed cutpoints, the classifier is non-decreasing in the value
    when higher is better and non-increasing when lower is better. *)
Theorem calcStar_monotone (cps : option ContractCutpoints) (v1 v2 : Q) :
  v1 <= v2 ->
  calcStarFromPerformance v1 cps false <= calcStarFromPerformance v2 cps false /\
  calcStarFromPerformance v1 cps true >= calcStarFromPerformance v2 cps true.
Proof.
  intros Hv. split.
  - apply (calcStar_better false v1 v2); exact Hv.
  - apply (calcStar_better true v2 v1); exact Hv.
Qed.

Lemma calcStar_monotone_witness :
  calcStarFromPerformance 75 (Some cp_60_70_80_90) false
    <= calcStarFromPerformance 85 (Some cp_60_70_80_90) false /\
  calcStarFromPerformance 75 (Some cp_60_70_80_90) true
    >= calcStarFromPerformance 85 (Some cp_60_70_80_90) true.
Proof.
  apply (calcStar_monotone (Some cp_60_70_80_90) 75 85).
  unfold Qle; simpl; lia.
Defined.

(** ** The adjustment flag *)

(** C9: for a supplied cutpoints object, [isOutsideBand] is true exactly
    when the rating the classifier gives to the value differs from the
    assigned rating; with thresholds 60/70/80/90 (higher is better), value
    88 and assigned rating 5 the flag is raised. *)
Theorem isOutsideBand_iff (value starRating : Q) (cp : ContractCutpoints) (lib : bool) :
  (isOutsideBand value starRating (Some cp) lib = true <->
   ~ calcStarFromPerformance value (Some cp) lib == starRating) /\
  isOutsideBand 88 5 (Some cp_60_70_80_90) false = true.
Proof.
  split; [|reflexivity].
  unfold isOutsideBand. apply JS_strict_ne_iff.
Qed.

(** without a cutpoints object the flag is never raised, although the
    classifier then answers 3 *)
Lemma isOutsideBand_no_cutpoints value starRating lib :
  isOutsideBand value starRating None lib = false.
Proof. reflexivity. Qed.

(** ** The aggregation loop *)

Section Loop.

Variable simValues : gmap string (option Q).

Lemma entryRating_simulated m :
  simulated simValues m = true -> is_Some (entryRating simValues m).
Proof.
  unfold simulated, entryRating, measureStar. intros H.
  apply andb_true_iff in H as [-> H]. apply bool_decide_eq_true in H.
  destruct H as [v ->]. eauto.
Qed.

Lemma loopBody_null st m :
  entryRating simValues m = None -> loopBody simValues st m = st.
Proof.
  unfold entryRating, loopBody, measureStar. destruct (in_2026 m); simpl; [|reflexivity].
  destruct (enteredSimValue simValues (measure_key m)); [discriminate|].
  intros ->. destruct st; reflexivity.
Qed.

Lemma loopBody_rated st m star :
  entryRating simValues m = Some star ->
  loopBody simValues st m =
    {| totalWeight := totalWeight st + weight m;
       weightedSum := weightedSum st + star * weight m;
       hasAnySimValue := hasAnySimValue st || simulated simValues m |}.
Proof.
  unfold entryRating, loopBody, simulated, measureStar.
  destruct (in_2026 m); simpl; [|discriminate].
  destruct (enteredSimValue simValues (measure_key m)) as [v|] eqn:E.
  - intros [= <-]. rewrite orb_true_r. reflexivity.
  - intros ->. rewrite orb_false_r. reflexivity.
Qed.

Lemma runLoop_cons m ms st :
  runLoop simValues (m :: ms) st = runLoop simValues ms (loopBody simValues st m).
Proof. reflexivity. Qed.

Lemma runLoop_app ms1 ms2 st :
  runLoop simValues (ms1 ++ ms2) st =
  runLoop simValues ms2 (runLoop simValues ms1 st).
Proof. unfold runLoop. apply fold_left_app. Qed.

Lemma runLoop_totalWeight ms : forall st,
  totalWeight (runLoop simValues ms st) == totalWeight st + ratedWeight simValues ms.
Proof.
  induction ms as [|m ms IH]; intros st.
  - simpl. lra.
  - rewrite runLoop_cons, IH. cbn [ratedWeight ratedSum].
    destruct (entryRating simValues m) as [star|] eqn:E.
    + rewrite (loopBody_rated _ _ _ E). simpl. lra.
    + rewrite (loopBody_null _ _ E). lra.
Qed.

Lemma runLoop_weightedSum ms : forall st,
  weightedSum (runLoop simValues ms st) == weightedSum st + ratedSum simValues ms.
Proof.
  induction ms as [|m ms IH]; intros st.
  - simpl. lra.
  - rewrite runLoop_cons, IH. cbn [ratedWeight ratedSum].
    destruct (entryRating simValues m) as [star|] eqn:E.
    + rewrite (loopBody_rated _ _ _ E). simpl. lra.
    + rewrite (loopBody_null _ _ E). lra.
Qed.

Lemma runLoop_hasAnySimValue ms : forall st,
  hasAnySimValue (runLoop simValues ms st) =
  hasAnySimValue st || existsb (simulated simValues) ms.
Proof.
  induction ms as [|m ms IH]; intros st.
  - simpl. rewrite orb_false_r. reflexivity.
  - rewrite runLoop_cons, IH. cbn [existsb].
    destruct (entryRating simValues m) as [star|] eqn:E.
    + rewrite (loopBody_rated _ _ _ E). simpl. rewrite orb_assoc. reflexivity.
    + rewrite (loopBody_null _ _ E).
      destruct (simulated simValues m) eqn:S; [|reflexivity].
      apply entryRating_simulated in S. rewrite E in S. destruct S; discriminate.
Qed.

Lemma runLoop_all_null ms st :
  Forall (fun m => entryRating simValues m = None) ms ->
  runLoop simValues ms st = st.
Proof.
  induction 1 as [|m ms Hm _ IH]; [reflexivity|].
  rewrite runLoop_cons, loopBody_null by exact Hm. exact IH.
Qed.

(** the result, read off the final loop state *)
Lemma calcSimulatedWeightedAvg_cases data :
  let st := runLoop simValues (measures data) loopInit in
  (calcSimulatedWeightedAvg (Some data) simValues = Null /\
     (hasAnySimValue st = false \/ totalWeight st <= 0)) \/
  (exists q, calcSimulatedWeightedAvg (Some data) simValues
               = Num (JS.Math_round (q * 100) / 100) /\
             q = weightedSum st / totalWeight st /\
             hasAnySimValue st = true /\ 0 < totalWeight st).
Proof.
  cbv zeta. unfold calcSimulatedWeightedAvg.
  destruct (hasAnySimValue _) eqn:Hh; simpl; [|left; tauto].
  destruct (JS.gt _ 0) eqn:Hg.
  - apply JS_gt_iff in Hg. right. unfold JS.div.
    destruct (Qeq_bool _ 0) eqn:Hz.
    + apply Qeq_bool_iff in Hz. lra.
    + eexists. split; [reflexivity|]. split; [reflexivity|]. split; [reflexivity|exact Hg].
  - left. split; [reflexivity|]. right.
    apply Qnot_lt_le. intros Hlt. apply JS_gt_iff in Hlt. congruence.
Qed.

End Loop.

(** ** Aggregation without data *)

Lemma calcSimulatedWeightedAvg_finite contractData simValues :
  calcSimulatedWeightedAvg contractData simValues <> NonFinite.
Proof.
  destruct contractData as [data|]; [|discriminate].
  destruct (calcSimulatedWeightedAvg_cases simValues data) as [[-> _]|(q & -> & _)];
    discriminate.
Qed.

(** C4: when every rating is null, or when the weights of the entries with
    a rating sum to zero, the aggregation returns null; and it never
    returns the outcome of a division by zero. *)
Theorem aggregate_no_weight
    (contractData : option ContractPerformanceData)
    (simValues : gmap string (option Q)) :
  calcSimulatedWeightedAvg contractData simValues <> NonFinite /\
  forall data, contractData = Some data ->
    Forall (fun m => entryRating simValues m = None) (measures data) \/
    ratedWeight simValues (measures data) == 0 ->
    calcSimulatedWeightedAvg contractData simValues = Null.
Proof.
  split; [apply calcSimulatedWeightedAvg_finite|].
  intros data -> H.
  destruct (calcSimulatedWeightedAvg_cases simValues data)
    as [[Hn _]|(q & _ & _ & Hh & Hw)]; [exact Hn|exfalso].
  destruct H as [Hall|Hzero].
  - rewrite (runLoop_all_null _ _ _ Hall) in Hh. discriminate.
  - rewrite runLoop_totalWeight, Hzero in Hw. simpl in Hw. lra.
Qed.

Lemma aggregate_no_weight_witness :
  calcSimulatedWeightedAvg (Some zero_weight_contract) {[ "A" := Some 95 ]} = Null.
Proof.
  apply (aggregate_no_weight (Some zero_weight_contract) {[ "A" := Some 95 ]})
    with (data := zero_weight_contract); [reflexivity|].
  right. vm_compute. reflexivity.
Defined.

(** ** Entries without a rating *)

(** C5: an entry whose rating is null, whatever its weight and wherever it
    stands in the list, leaves the weighted average as it is without it. *)
Theorem aggregate_null_entry
    (simValues : gmap string (option Q)) (m : ContractMeasureRow)
    (ms1 ms2 : list ContractMeasureRow)
    (ys : list Z) (avgs : option (gmap Z (option Q))) :
  measureStar simValues m = None ->
  calcSimulatedWeightedAvg
    (Some {| years := ys; measures := ms1 ++ m :: ms2; yearly_weighted_avgs := avgs |})
    simValues
  = calcSimulatedWeightedAvg
    (Some {| years := ys; measures := ms1 ++ ms2; yearly_weighted_avgs := avgs |})
    simValues.
Proof.
  intros Hnull.
  assert (He : entryRating simValues m = None)
    by (unfold entryRating; rewrite Hnull; destruct (in_2026 m); reflexivity).
  unfold calcSimulatedWeightedAvg. cbn [measures].
  rewrite !runLoop_app, runLoop_cons, (loopBody_null _ _ _ He). reflexivity.
Qed.

Lemma aggregate_null_entry_witness :
  calcSimulatedWeightedAvg
    (Some {| years := [2026%Z];
             measures := [row "A" false 1 (Some 75) (Some 3) (Some cp_60_70_80_90)]
                         ++ row "N" false 7 None None (Some cp_60_70_80_90)
                         :: [row "B" false 2 (Some 65) (Some 2) (Some cp_60_70_80_90)];
             yearly_weighted_avgs := None |})
    {[ "B" := Some 85 ]}
  = calcSimulatedWeightedAvg
    (Some {| years := [2026%Z];
             measures := [row "A" false 1 (Some 75) (Some 3) (Some cp_60_70_80_90)]
                         ++ [row "B" false 2 (Some 65) (Some 2) (Some cp_60_70_80_90)];
             yearly_weighted_avgs := None |})
    {[ "B" := Some 85 ]}.
Proof.
  apply (aggregate_null_entry {[ "B" := Some 85 ]}
           (row "N" false 7 None None (Some cp_60_70_80_90))).
  vm_compute. reflexivity.
Defined.

(** ** Simulation without overrides *)

(** a key the empty object does not own is read from [Object.prototype] *)
Lemma enteredSimValue_empty key :
  enteredSimValue ∅ key = if inheritedProperty key then Some Inherited else None.
Proof. unfold enteredSimValue. rewrite lookup_empty. reflexivity. Qed.

(** clearing the input field stores null, which is no override either *)
Lemma enteredSimValue_cleared key prev :
  enteredSimValue (onChangeSimValue key None prev) key = None.
Proof.
  unfold enteredSimValue, onChangeSimValue. rewrite lookup_insert_eq. reflexivity.
Qed.

Lemma existsb_simulated_empty ms :
  Forall ownKeyRow ms -> existsb (simulated ∅) ms = false.
Proof.
  induction 1 as [|m ms Hm _ IH]; [reflexivity|]. simpl. rewrite IH, orb_false_r.
  unfold simulated. rewrite enteredSimValue_empty.
  unfold ownKeyRow in Hm. destruct (in_2026 m); [|reflexivity]. rewrite (Hm eq_refl).
  rewrite bool_decide_eq_false_2; [reflexivity|]. intros [v Hv]. discriminate.
Qed.

(** the result is a number only if a value was entered for some row of the
    2026 measure set *)
Lemma calcSimulatedWeightedAvg_needs_override data simValues :
  existsb (simulated simValues) (measures data) = false ->
  calcSimulatedWeightedAvg (Some data) simValues = Null.
Proof.
  intros H.
  destruct (calcSimulatedWeightedAvg_cases simValues data)
    as [[Hn _]|(q & _ & _ & Hh & _)]; [exact Hn|].
  rewrite runLoop_hasAnySimValue, H in Hh. discriminate.
Qed.

Lemma calcSimulatedWeightedAvg_empty data :
  Forall ownKeyRow (measures data) ->
  calcSimulatedWeightedAvg (Some data) ∅ = Null.
Proof.
  intros H. apply calcSimulatedWeightedAvg_needs_override, existsb_simulated_empty, H.
Qed.

Lemma ratedWeight_nonneg simValues ms :
  Forall (fun m => in_2026 m = true -> 0 < weight m) ms ->
  0 <= ratedWeight simValues ms.
Proof.
  induction 1 as [|m ms Hm _ IH]; simpl; [lra|].
  unfold entryRating. destruct (in_2026 m); [|exact IH].
  destruct (measureStar simValues m); [|exact IH].
  specialize (Hm eq_refl). lra.
Qed.

Lemma ratedWeight_pos simValues ms :
  Forall (fun m => in_2026 m = true -> 0 < weight m) ms ->
  existsb (simulated simValues) ms = true ->
  0 < ratedWeight simValues ms.
Proof.
  induction 1 as [|m ms Hm Hms IH]; simpl; [discriminate|].
  intros Hex. pose proof (ratedWeight_nonneg simValues ms Hms) as Hge.
  destruct (simulated simValues m) eqn:S.
  - destruct (entryRating_simulated _ _ S) as [star ->].
    apply andb_true_iff in S as [S _]. specialize (Hm S). lra.
  - simpl in Hex. specialize (IH Hex).
    unfold entryRating. destruct (in_2026 m); [|exact IH].
    destruct (measureStar simValues m); [|exact IH].
    specialize (Hm eq_refl). lra.
Qed.

(** when no row of the 2026 measure set is keyed by the name of a member
    of [Object.prototype]: with no override the simulated average is null
    ("no simulation"); a simulation that yields a number, be it the actual
    one, is therefore told apart from it; with positive weights every
    override entered for a row of the 2026 measure set yields a number.
    The sample contract shows a simulation equal to the actual result next
    to the absent one. *)
Lemma no_override_no_simulation (data : ContractPerformanceData) :
  Forall ownKeyRow (measures data) ->
  calcSimulatedWeightedAvg (Some data) ∅ = Null /\
  (forall simValues q,
     calcSimulatedWeightedAvg (Some data) simValues = Num q ->
     calcSimulatedWeightedAvg (Some data) simValues
       <> calcSimulatedWeightedAvg (Some data) ∅) /\
  (forall simValues,
     Forall (fun m => in_2026 m = true -> 0 < weight m) (measures data) ->
     existsb (simulated simValues) (measures data) = true ->
     exists q, calcSimulatedWeightedAvg (Some data) simValues = Num q) /\
  (latestValue one_measure_contract
     (row "A" false 1 (Some 85) (Some 4) (Some cp_60_70_80_90)) = Some 85 /\
   isSomeNum (yearlyHalfStar one_measure_contract 2026) 4 /\
   isNum (simulatedHalfStar
            (calcSimulatedWeightedAvg (Some one_measure_contract) {[ "A" := Some 85 ]})) 4 /\
   simulatedHalfStar
     (calcSimulatedWeightedAvg (Some one_measure_contract) ∅) = Null).
Proof.
  intros Hown.
  split; [apply calcSimulatedWeightedAvg_empty, Hown|].
  split; [intros simValues q Hq;
          rewrite Hq, (calcSimulatedWeightedAvg_empty _ Hown); discriminate|].
  split; [|split; [vm_compute; reflexivity|];
           split; [eexists; split; [vm_compute; reflexivity|reflexivity]|];
           split; [eexists; split; [vm_compute; reflexivity|reflexivity]|];
           vm_compute; reflexivity].
  intros simValues Hw Hex.
  destruct (calcSimulatedWeightedAvg_cases simValues data)
    as [[_ [Hh|Ht]]|(q & Hq & _)]; [| |eauto].
  - rewrite runLoop_hasAnySimValue, Hex in Hh. discriminate.
  - pose proof (ratedWeight_pos simValues _ Hw Hex) as Hpos.
    rewrite runLoop_totalWeight in Ht. simpl in Ht. lra.
Qed.

Lemma no_override_no_simulation_sample :
  calcSimulatedWeightedAvg (Some one_measure_contract) {[ "A" := Some 85 ]}
    <> calcSimulatedWeightedAvg (Some one_measure_contract) ∅ /\
  exists q, calcSimulatedWeightedAvg (Some one_measure_contract) {[ "A" := Some 85 ]} = Num q.
Proof.
  assert (Hown : Forall ownKeyRow (measures one_measure_contract))
    by (constructor; [intros _; reflexivity|constructor]).
  destruct (no_override_no_simulation one_measure_contract Hown)
    as (_ & Hdistinct & Hnum & _).
  split.
  - apply (Hdistinct {[ "A" := Some 85 ]} (400 # 100)). vm_compute. reflexivity.
  - apply (Hnum {[ "A" := Some 85 ]}).
    + constructor; [intros _; reflexivity|constructor].
    + vm_compute. reflexivity.
Defined.

(** C7: with zero overrides the page is meant to report "no simulation
    performed" (the code says: only return the simulated average if the
    user has entered at least one value), and it does so for every contract
    whose 2026 rows are keyed by ordinary names.  For a 2026 row keyed
    [constructor] it does not: nothing was typed, yet [simValues[key]] is
    the inherited function, the row is simulated as 1 star, the simulated
    average is 1 and the output cell shows 1 star down from 4. *)
Theorem inherited_key_simulates_without_override :
  enteredSimValue ∅ (measure_key inherited_key_row) = Some Inherited /\
  isNum (calcSimulatedWeightedAvg (Some (contract [inherited_key_row])) ∅) 1 /\
  calcSimulatedWeightedAvg (Some (contract [inherited_key_row])) ∅ <> Null /\
  simOutputCell ∅ inherited_key_row = CellStar 1 (Some (false, 4)) /\
  (forall data, Forall ownKeyRow (measures data) ->
     calcSimulatedWeightedAvg (Some data) ∅ = Null).
Proof.
  split; [vm_compute; reflexivity|].
  split; [eexists; split; [vm_compute; reflexivity|reflexivity]|].
  split; [vm_compute; discriminate|].
  split; [vm_compute; reflexivity|].
  exact calcSimulatedWeightedAvg_empty.
Qed.

Lemma inherited_key_simulates_without_override_witness :
  calcSimulatedWeightedAvg (Some one_measure_contract) ∅ = Null.
Proof.
  apply inherited_key_simulates_without_override.
  constructor; [intros _; reflexivity|constructor].
Defined.

(** ** Half-star rounding *)

Lemma Qabs_cases x : (0 <= x /\ Qabs x == x) \/ (x <= 0 /\ Qabs x == - x).
Proof.
  destruct (Qlt_le_dec x 0) as [H|H].
  - right. split; [lra|]. apply Qabs_neg. lra.
  - left. split; [exact H|]. apply Qabs_pos. exact H.
Qed.

(** case analysis on every absolute value in sight, then linear arithmetic *)
Ltac qabs_lra :=
  repeat match goal with
         | |- context [Qabs ?t] =>
             let H := fresh "Habs" in
             destruct (Qabs_cases t) as [[? H]|[? H]];
             generalize dependent (Qabs t); intros
         | H0 : context [Qabs ?t] |- _ =>
             let H := fresh "Habs" in
             destruct (Qabs_cases t) as [[? H]|[? H]];
             generalize dependent (Qabs t); intros
         end;
  lra.

Lemma roundsHalfAwayFromZero_unique x n n' :
  roundsHalfAwayFromZero x n -> roundsHalfAwayFromZero x n' -> n = n'.
Proof.
  unfold roundsHalfAwayFromZero. intros H H'.
  assert (Hd : inject_Z n <= inject_Z (n' + 1) /\ inject_Z n' <= inject_Z (n + 1)).
  { rewrite !inject_Z_plus. change (inject_Z 1) with 1.
    destruct H as [H|[H _]], H' as [H'|[H' _]]; split; qabs_lra. }
  rewrite <- !Zle_Qle in Hd.
  assert (Hc : n' = n \/ n' = (n + 1)%Z \/ n = (n' + 1)%Z) by lia.
  destruct Hc as [->|[->| ->]]; [reflexivity| |]; exfalso.
  - assert (Hs : inject_Z 0 <= inject_Z n \/ inject_Z (n + 1) <= inject_Z 0)
      by (rewrite <- !Zle_Qle; lia).
    rewrite !inject_Z_plus in *. change (inject_Z 1) with 1 in *.
    change (inject_Z 0) with 0 in *.
    destruct H as [H|[H Ha]], H' as [H'|[H' Ha']], Hs as [Hs|Hs]; qabs_lra.
  - assert (Hs : inject_Z 0 <= inject_Z n' \/ inject_Z (n' + 1) <= inject_Z 0)
      by (rewrite <- !Zle_Qle; lia).
    rewrite !inject_Z_plus in *. change (inject_Z 1) with 1 in *.
    change (inject_Z 0) with 0 in *.
    destruct H as [H|[H Ha]], H' as [H'|[H' Ha']], Hs as [Hs|Hs]; qabs_lra.
Qed.

Lemma Math_round_bounds x :
  x - (1 # 2) < JS.Math_round x /\ JS.Math_round x <= x + (1 # 2).
Proof.
  unfold JS.Math_round.
  pose proof (Qfloor_le (x + (1 # 2))) as Hle.
  pose proof (Qlt_floor (x + (1 # 2))) as Hlt.
  rewrite inject_Z_plus in Hlt. change (inject_Z 1) with 1 in Hlt. split; lra.
Qed.

Lemma Math_round_halfUp x : roundsHalfUp x (Qfloor (x + (1 # 2))).
Proof.
  destruct (Math_round_bounds x) as [Hlo Hhi]. unfold JS.Math_round in *.
  unfold roundsHalfUp.
  destruct (Qlt_le_dec (inject_Z (Qfloor (x + (1 # 2))) - x) (1 # 2)) as [Hlt|Hge].
  - left. apply Qabs_Qlt_condition. split; lra.
  - right. lra.
Qed.

Lemma Math_round_nonneg x : 0 <= x -> 0 <= JS.Math_round x.
Proof.
  intros Hx. unfold JS.Math_round.
  assert (H : (Qfloor 0 <= Qfloor (x + (1 # 2)))%Z) by (apply Qfloor_resp_le; lra).
  change (Qfloor 0) with 0%Z in H. rewrite Zle_Qle in H. exact H.
Qed.

Lemma Math_round_halfAway x :
  0 <= x -> roundsHalfAwayFromZero x (Qfloor (x + (1 # 2))).
Proof.
  intros Hx. pose proof (Math_round_nonneg x Hx) as Hn. unfold JS.Math_round in Hn.
  destruct (Math_round_halfUp x) as [Hlt|Heq]; [left; exact Hlt|right].
  split.
  - rewrite Qabs_pos by lra. exact Heq.
  - rewrite (Qabs_pos x Hx), (Qabs_pos _ Hn). lra.
Qed.

(** for a negative tie [Math.round] goes up, that is towards zero *)
Example Math_round_negative_tie : JS.Math_round (- (5 # 2)) = - 2.
Proof. reflexivity. Qed.

Lemma calcStarOfSimValue_range simVal cps lib :
  let s := calcStarOfSimValue simVal cps lib in
  s = 1 \/ s = 2 \/ s = 3 \/ s = 4 \/ s = 5.
Proof.
  destruct simVal as [v|]; [apply calcStar_range|].
  destruct cps; simpl; tauto.
Qed.




(** the number returned is the weighted average over the rated entries,
    rounded to two decimals *)
Lemma calcSimulatedWeightedAvg_score data simValues q :
  calcSimulatedWeightedAvg (Some data) simValues = Num q ->
  0 < ratedWeight simValues (measures data) /\
  q = JS.Math_round
        (ratedSum simValues (measures data) / ratedWeight simValues (measures data) * 100)
      / 100.
Proof.
  intros Hq.
  destruct (calcSimulatedWeightedAvg_cases simValues data)
    as [[Hn _]|(r & Hr & -> & _ & Hw)]; [congruence|].
  rewrite Hr in Hq. injection Hq as <-.
  pose proof (runLoop_totalWeight simValues (measures data) loopInit) as Ht.
  pose proof (runLoop_weightedSum simValues (measures data) loopInit) as Hs.
  simpl in Ht, Hs. rewrite Qplus_0_l in Ht, Hs.
  split; [rewrite <- Ht; exact Hw|].
  unfold JS.Math_round. do 2 f_equal. apply Qfloor_comp.
  rewrite Ht, Hs. reflexivity.
Qed.

(** the half star is taken from the average rounded to two decimals:
    ratings 3 (weight 40) and 4 (weight 13) average 172/53 = 3.2452...,
    shown as 3.25, hence 3.5 stars *)
Example halfStar_of_rounded_average :
  calcSimulatedWeightedAvg
    (Some (contract [row "A" false 40 (Some 75) (Some 3) (Some cp_60_70_80_90);
                     row "B" false 13 (Some 75) (Some 3) (Some cp_60_70_80_90)]))
    {[ "B" := Some 85 ]} = Num (325 # 100) /\
  halfStar (325 # 100) == 3.5 /\
  halfStar (172 # 53) == 3.0.
Proof. vm_compute. repeat split; reflexivity. Qed.


(** the spec's rounding is the integer nearest to [x], a tie going away
    from zero *)
Lemma specRound_rounds (x : Q) :
  exists n : Z, specRound x = inject_Z n /\ roundsHalfAwayFromZero x n.
Proof.
  unfold specRound. destruct (Qle_bool 0 x) eqn:E.
  - apply Qle_bool_iff in E. eexists. split; [reflexivity|].
    apply Math_round_halfAway. exact E.
  - assert (Hx : 0 <= - x).
    { destruct (Qlt_le_dec x 0) as [H|H]; [lra|]. apply Qle_bool_iff in H. congruence. }
    exists (- Qfloor (- x + (1 # 2)))%Z. split; [rewrite inject_Z_opp; reflexivity|].
    pose proof (Math_round_halfAway (- x) Hx) as H.
    unfold roundsHalfAwayFromZero in *. rewrite inject_Z_opp.
    revert H. generalize (inject_Z (Qfloor (- x + (1 # 2)))). intros r H.
    assert (E1 : Qabs (- r - x) == Qabs (r - - x))
      by (rewrite <- (Qabs_opp (r - - x)); apply Qabs_wd; ring).
    assert (E2 : Qabs (- r) == Qabs r) by apply Qabs_opp.
    assert (E3 : Qabs (- x) == Qabs x) by apply Qabs_opp.
    rewrite E1, E2. rewrite E3 in H. exact H.
Qed.






Example halfStar_tie : halfStar (17 # 4) == 4.5.
Proof. reflexivity. Qed.

(** ** Simulating with the actual value *)

Example adjusted_row_flagged :
  outsideBand (contract [adjusted_row]) adjusted_row = Some true.
Proof. vm_compute. reflexivity. Qed.

Example adjusted_row_cell :
  simOutputCell {[ "M" := Some 88 ]} adjusted_row = CellStar 4 (Some (false, 5)).
Proof. vm_compute. reflexivity. Qed.

(** C8 as stated fails: the row whose assigned rating 5 was adjusted away
    from its value 88 is simulated at 88 as 4 stars, down from 5. *)
Lemma actual_value_changes_adjusted_rating :
  in_2026 adjusted_row = true /\
  is_Some (cutpoints adjusted_row) /\
  ~ actualValueKeepsRating (contract [adjusted_row]) adjusted_row.
Proof.
  split; [reflexivity|]. split; [eexists; reflexivity|].
  intros H.
  destruct (H {[ "M" := Some 88 ]} 88 {| band_year := 2026; star_rating := 5 |})
    as (simStar & Hcell & _); try (vm_compute; reflexivity).
  rewrite adjusted_row_cell in Hcell. discriminate.
Qed.

(** C8, amended: for a row of the 2026 measure set whose band cell is
    shown without the adjustment badge, entering the latest value gives the
    assigned rating back and no change is reported. *)
Theorem actual_value_keeps_unadjusted_rating
    (data : ContractPerformanceData) (m : ContractMeasureRow) :
  in_2026 m = true ->
  outsideBand data m = Some false ->
  actualValueKeepsRating data m.
Proof.
  intros Hin Hout simValues v band Hv Hband Hsim.
  unfold outsideBand in Hout. rewrite Hband, Hv in Hout.
  destruct (cutpoints m) as [cp|] eqn:Hcp; [|discriminate].
  assert (Hs : JS.strict_ne (calcStarFromPerformance v (Some cp) (lower_is_better m))
                            (star_rating band) = false)
    by (injection Hout as Hout; exact Hout).
  unfold simOutputCell. rewrite Hin, Hcp, Hsim, Hband. cbv zeta.
  cbn [calcStarOfSimValue]. rewrite Hs, andb_false_r.
  eexists. split; [reflexivity|].
  destruct (Qeq_dec (calcStarFromPerformance v (Some cp) (lower_is_better m))
                    (star_rating band)) as [Heq|Hne]; [lra|].
  apply JS_strict_ne_iff in Hne. congruence.
Qed.

Lemma actual_value_keeps_unadjusted_rating_witness :
  actualValueKeepsRating (contract [unadjusted_row]) unadjusted_row.
Proof.
  apply (actual_value_keeps_unadjusted_rating (contract [unadjusted_row]) unadjusted_row).
  - reflexivity.
  - vm_compute. reflexivity.
Defined.

(** * Further properties of the contract tab *)

(** ** Integer rounding *)

Lemma inject_Z_lt_succ (a b : Z) : inject_Z a < inject_Z b + 1 -> (a <= b)%Z.
Proof.
  intros H.
  assert (H' : inject_Z a < inject_Z (b + 1))
    by (rewrite inject_Z_plus; change (inject_Z 1) with 1; exact H).
  rewrite <- Zlt_Qlt in H'. lia.
Qed.

Lemma Qfloor_bounds (x : Q) :
  inject_Z (Qfloor x) <= x /\ x < inject_Z (Qfloor x) + 1.
Proof.
  pose proof (Qfloor_le x) as Hle. pose proof (Qlt_floor x) as Hlt.
  rewrite inject_Z_plus in Hlt. change (inject_Z 1) with 1 in Hlt. tauto.
Qed.

Lemma Qfloor_unique (x : Q) (n : Z) :
  inject_Z n <= x -> x < inject_Z n + 1 -> Qfloor x = n.
Proof.
  intros Hlo Hhi. destruct (Qfloor_bounds x) as [Hle Hlt].
  apply Z.le_antisymm; apply inject_Z_lt_succ; lra.
Qed.

Lemma Qfloor_iff (x : Q) (n : Z) :
  Qfloor x = n <-> inject_Z n <= x /\ x < inject_Z n + 1.
Proof.
  split; [intros <-; apply Qfloor_bounds|intros [H1 H2]; apply Qfloor_unique; assumption].
Qed.

Lemma Qceiling_iff (x : Q) (n : Z) :
  Qceiling x = n <-> inject_Z n - 1 < x /\ x <= inject_Z n.
Proof.
  unfold Qceiling. split.
  - intros <-. destruct (Qfloor_bounds (- x)) as [H1 H2].
    rewrite inject_Z_opp. split; lra.
  - intros [H1 H2]. rewrite (Qfloor_unique (- x) (- n)); [lia| |];
      rewrite inject_Z_opp; lra.
Qed.

Lemma Math_round_Z (n : Z) : JS.Math_round (inject_Z n) = inject_Z n.
Proof.
  unfold JS.Math_round. f_equal. apply Qfloor_unique; lra.
Qed.

Lemma Math_round_mono (x y : Q) : x <= y -> JS.Math_round x <= JS.Math_round y.
Proof.
  intros H. unfold JS.Math_round. rewrite <- Zle_Qle.
  apply Qfloor_resp_le. lra.
Qed.

Lemma Math_round_comp (x y : Q) : x == y -> JS.Math_round x = JS.Math_round y.
Proof.
  intros H. unfold JS.Math_round. f_equal. apply Qfloor_comp. rewrite H. reflexivity.
Qed.

(** rounding to [1/d] keeps a value between two integers *)
Lemma Math_round_scaled_bounds (x : Q) (lo hi d : Z) :
  (0 < d)%Z -> inject_Z lo <= x <= inject_Z hi ->
  inject_Z lo <= JS.Math_round (x * inject_Z d) / inject_Z d <= inject_Z hi.
Proof.
  intros Hd [Hlo Hhi].
  assert (Hd' : 0 < inject_Z d) by (change 0 with (inject_Z 0); rewrite <- Zlt_Qlt; exact Hd).
  assert (H1 : inject_Z (lo * d) <= x * inject_Z d)
    by (rewrite inject_Z_mult; apply Qmult_le_compat_r; lra).
  assert (H2 : x * inject_Z d <= inject_Z (hi * d))
    by (rewrite inject_Z_mult; apply Qmult_le_compat_r; lra).
  apply Math_round_mono in H1, H2. rewrite Math_round_Z in H1, H2.
  rewrite inject_Z_mult in H1, H2.
  split.
  - apply Qle_shift_div_l; assumption.
  - apply Qle_shift_div_r; assumption.
Qed.

(** ** Bounds of the simulated average *)

Lemma entryRating_bounds simValues m star :
  ratedRow m -> entryRating simValues m = Some star ->
  weight m <= star * weight m <= 5 * weight m.
Proof.
  unfold ratedRow, entryRating, measureStar, actualStar.
  destruct (in_2026 m); [|discriminate]. intros H. destruct (H eq_refl) as [Hw Hb].
  intros Hs.
  assert (Hstar : 1 <= star <= 5).
  { destruct (enteredSimValue simValues (measure_key m)) as [v|].
    - injection Hs as <-.
      pose proof (calcStarOfSimValue_range v (cutpoints m) (lower_is_better m)) as Hr.
      cbv zeta in Hr. destruct Hr as [->|[->|[->|[->| ->]]]]; split; lra.
    - destruct (latest_band m) as [band|]; [|discriminate].
      destruct (JS.truthy (star_rating band)); [|discriminate].
      injection Hs as <-. apply Hb. reflexivity. }
  split.
  - rewrite <- (Qmult_1_l (weight m)) at 1. apply Qmult_le_compat_r; tauto.
  - apply Qmult_le_compat_r; tauto.
Qed.

Lemma ratedSum_bounds simValues ms :
  Forall ratedRow ms ->
  ratedWeight simValues ms <= ratedSum simValues ms <= 5 * ratedWeight simValues ms.
Proof.
  induction 1 as [|m ms Hm _ IH]; simpl; [lra|].
  destruct (entryRating simValues m) as [star|] eqn:E; [|exact IH].
  pose proof (entryRating_bounds _ _ _ Hm E). lra.
Qed.

(** a concrete row meets [ratedRow] by evaluation *)
Ltac rated_row :=
  intros _; split;
  [unfold Qle; simpl; lia
  |intros band [= <-]; simpl; split; unfold Qle; simpl; lia].

(** X1: with weights that are not negative and assigned ratings between 1
    and 5, a simulated average lies between 1 and 5, and so does its half
    star. *)
Theorem simulatedAvg_bounds
    (data : ContractPerformanceData) (simValues : gmap string (option Q)) (q : Q) :
  Forall ratedRow (measures data) ->
  calcSimulatedWeightedAvg (Some data) simValues = Num q ->
  1 <= q <= 5 /\ 1 <= halfStar q <= 5.
Proof.
  intros Hrows Hq.
  destruct (calcSimulatedWeightedAvg_score _ _ _ Hq) as [Hw ->].
  pose proof (ratedSum_bounds simValues _ Hrows) as [Hlo Hhi].
  set (S := ratedSum simValues (measures data)) in *.
  set (W := ratedWeight simValues (measures data)) in *.
  assert (Hd : inject_Z 1 <= S / W <= inject_Z 5).
  { change (inject_Z 1) with 1. change (inject_Z 5) with 5. split.
    - apply Qle_shift_div_l; lra.
    - apply Qle_shift_div_r; lra. }
  pose proof (Math_round_scaled_bounds _ 1 5 100 eq_refl Hd) as Hq'.
  change (inject_Z 100) with 100 in Hq'.
  split; [exact Hq'|].
  apply (Math_round_scaled_bounds _ 1 5 2 eq_refl Hq').
Qed.

Lemma simulatedAvg_bounds_witness :
  exists q, calcSimulatedWeightedAvg
              (Some (contract [row "A" false 1 (Some 75) (Some 3) (Some cp_60_70_80_90);
                               row "B" false 2 (Some 75) (Some 3) (Some cp_60_70_80_90)]))
              {[ "B" := Some 85 ]} = Num q /\
            1 <= q <= 5 /\ 1 <= halfStar q <= 5.
Proof.
  exists (367 # 100). split; [vm_compute; reflexivity|].
  apply (simulatedAvg_bounds
           (contract [row "A" false 1 (Some 75) (Some 3) (Some cp_60_70_80_90);
                      row "B" false 2 (Some 75) (Some 3) (Some cp_60_70_80_90)])
           {[ "B" := Some 85 ]}).
  - repeat (apply List.Forall_cons; [rated_row|]). apply List.Forall_nil.
  - vm_compute. reflexivity.
Defined.

(** ** The simulated values as a map *)




Lemma enteredSimValue_onChange key val prev key' :
  enteredSimValue (onChangeSimValue key val prev) key'
  = if decide (key = key') then Typed <$> val else enteredSimValue prev key'.
Proof.
  unfold enteredSimValue, onChangeSimValue. rewrite lookup_insert.
  destruct (decide (key = key')); [destruct val|]; reflexivity.
Qed.



(** ** A better value never lowers the simulated average *)

Section BetterValue.

Variable simValues : gmap string (option Q).
Variable key : string.
Variable lib : bool.
Variables v1 v2 : Q.
Hypothesis Hbetter : if lib then v2 <= v1 else v1 <= v2.

Let simValues1 := onChangeSimValue key (Some v1) simValues.
Let simValues2 := onChangeSimValue key (Some v2) simValues.

Let fieldRow := fieldRowOf key lib.

Lemma entryRating_better m :
  fieldRow m ->
  simulated simValues1 m = simulated simValues2 m /\
  ((entryRating simValues1 m = None /\ entryRating simValues2 m = None) \/
   (exists a b, entryRating simValues1 m = Some a /\
                entryRating simValues2 m = Some b /\
                a * weight m <= b * weight m)).
Proof.
  intros [Hdir Hw].
  unfold simulated, entryRating, measureStar, simValues1, simValues2.
  rewrite !enteredSimValue_onChange.
  destruct (decide (key = measure_key m)) as [Hk|Hk].
  - split; [reflexivity|]. destruct (in_2026 m); [right|left; tauto].
    do 2 eexists. split; [reflexivity|]. split; [reflexivity|].
    apply Qmult_le_compat_r; [|apply Hw; reflexivity].
    rewrite Hdir by (symmetry; exact Hk). apply calcStar_better. exact Hbetter.
  - split; [reflexivity|]. destruct (in_2026 m); [|left; tauto].
    destruct (enteredSimValue simValues (measure_key m)) as [v|].
    + right. do 2 eexists. split; [reflexivity|]. split; [reflexivity|]. lra.
    + destruct (actualStar m) as [a|]; [right|left; tauto].
      exists a, a. split; [reflexivity|]. split; [reflexivity|]. lra.
Qed.

Lemma rated_better ms :
  Forall fieldRow ms ->
  existsb (simulated simValues1) ms = existsb (simulated simValues2) ms /\
  ratedWeight simValues1 ms = ratedWeight simValues2 ms /\
  ratedSum simValues1 ms <= ratedSum simValues2 ms.
Proof.
  induction 1 as [|m ms Hm _ (IHe & IHw & IHs)]; [simpl; repeat split; lra|].
  destruct (entryRating_better m Hm) as [Hsim [[E1 E2]|(a & b & E1 & E2 & Hab)]];
    cbn [existsb ratedWeight ratedSum]; rewrite E1, E2, Hsim, IHe, IHw;
    repeat split; lra.
Qed.

Lemma simulatedAvg_better data q1 :
  Forall fieldRow (measures data) ->
  calcSimulatedWeightedAvg (Some data) simValues1 = Num q1 ->
  exists q2, calcSimulatedWeightedAvg (Some data) simValues2 = Num q2 /\ q1 <= q2.
Proof.
  intros Hrows H1.
  destruct (rated_better _ Hrows) as (He & Hw & Hs).
  destruct (calcSimulatedWeightedAvg_score _ _ _ H1) as [Hpos ->].
  destruct (calcSimulatedWeightedAvg_cases simValues1 data)
    as [[Hn _]|(_ & _ & _ & Hh & _)]; [congruence|].
  rewrite runLoop_hasAnySimValue in Hh. simpl in Hh.
  destruct (calcSimulatedWeightedAvg_cases simValues2 data)
    as [[_ [Hh2|Ht2]]|(r & Hr & _)].
  - rewrite runLoop_hasAnySimValue in Hh2. simpl in Hh2. congruence.
  - rewrite runLoop_totalWeight in Ht2. simpl in Ht2. rewrite Hw in Hpos. lra.
  - eexists. split; [exact Hr|].
    destruct (calcSimulatedWeightedAvg_score _ _ _ Hr) as [_ Hq2].
    rewrite Hq2, <- Hw.
    apply Qmult_le_compat_r; [|unfold Qle; simpl; lia].
    apply Math_round_mono. apply Qmult_le_compat_r; [|lra].
    apply Qmult_le_compat_r; [exact Hs|]. apply Qinv_le_0_compat. lra.
Qed.

End BetterValue.

(** X3: replacing the value entered for a measure by a better one (higher
    when higher is better, lower when lower is better) never lowers the
    simulated average, and the average stays a number. *)
Theorem better_value_never_lowers_average
    (simValues : gmap string (option Q)) (key : string) (lib : bool) (v1 v2 : Q)
    (data : ContractPerformanceData) (q1 : Q) :
  (if lib then v2 <= v1 else v1 <= v2) ->
  Forall (fieldRowOf key lib) (measures data) ->
  calcSimulatedWeightedAvg (Some data) (onChangeSimValue key (Some v1) simValues) = Num q1 ->
  exists q2,
    calcSimulatedWeightedAvg (Some data) (onChangeSimValue key (Some v2) simValues) = Num q2 /\
    q1 <= q2.
Proof.
  intros Hbetter Hrows H1.
  exact (simulatedAvg_better simValues key lib v1 v2 Hbetter data q1 Hrows H1).
Qed.

Lemma better_value_never_lowers_average_witness :
  exists q2,
    calcSimulatedWeightedAvg
      (Some (contract [row "A" false 1 (Some 75) (Some 3) (Some cp_60_70_80_90);
                       row "B" true 2 (Some 75) (Some 3) (Some cp_60_70_80_90)]))
      (onChangeSimValue "A" (Some 95) ∅) = Num q2 /\
    333 # 100 <= q2.
Proof.
  apply (better_value_never_lowers_average ∅ "A" false 85 95
           (contract [row "A" false 1 (Some 75) (Some 3) (Some cp_60_70_80_90);
                      row "B" true 2 (Some 75) (Some 3) (Some cp_60_70_80_90)])).
  - unfold Qle; simpl; lia.
  - repeat (apply List.Forall_cons;
            [split; [intros H; try reflexivity; discriminate H
                    |intros _; unfold Qle; simpl; lia]|]).
    apply List.Forall_nil.
  - vm_compute. reflexivity.
Defined.

(** ** The half star as a function of the average *)

Lemma halfStar_mono (a b : Q) : a <= b -> halfStar a <= halfStar b.
Proof.
  intros H. unfold halfStar.
  apply Qmult_le_compat_r; [|unfold Qle; simpl; lia].
  apply Math_round_mono. lra.
Qed.

Lemma halfStar_half_integer (n : Z) : halfStar (inject_Z n / 2) = inject_Z n / 2.
Proof.
  unfold halfStar. rewrite <- (Math_round_Z n) at 2. f_equal.
  apply Math_round_comp. field.
Qed.

(** X4: the half star does not decrease when the average grows, and a
    rating that already is a multiple of 0.5 is left as it is: rounding a
    half star once more changes nothing. *)
Theorem halfStar_monotone_idempotent (a b : Q) :
  (a <= b -> halfStar a <= halfStar b) /\
  halfStar (halfStar a) = halfStar a /\
  (forall n : Z, halfStar (inject_Z n / 2) = inject_Z n / 2).
Proof.
  split; [apply halfStar_mono|]. split; [|apply halfStar_half_integer].
  unfold halfStar at 2 3. apply halfStar_half_integer.
Qed.

Lemma halfStar_monotone_idempotent_witness :
  halfStar (324 # 100) <= halfStar (325 # 100).
Proof.
  apply (halfStar_monotone_idempotent (324 # 100) (325 # 100)).
  unfold Qle; simpl; lia.
Defined.

(** ** The colour of the overall rating *)

Lemma ceil_halfStar_iff (avg : Q) (k : Z) :
  Math_ceil (halfStar avg) == inject_Z k <->
  inject_Z k - (3 # 4) <= avg /\ avg < inject_Z k + (1 # 4).
Proof.
  unfold Math_ceil, halfStar, JS.Math_round.
  set (n := Qfloor (avg * 2 + (1 # 2))).
  destruct (Qfloor_bounds (avg * 2 + (1 # 2))) as [Hlo Hhi]. fold n in Hlo, Hhi.
  rewrite inject_Z_injective, Qceiling_iff.
  unfold Qdiv. change (/ 2) with (1 # 2).
  assert (Hz : forall a b : Z, (a <= b)%Z <-> inject_Z a <= inject_Z b)
    by (intros; rewrite Zle_Qle; reflexivity).
  assert (E1 : inject_Z (2 * k + -1) == 2 * inject_Z k - 1)
    by (rewrite inject_Z_plus, inject_Z_mult; reflexivity).
  assert (E2 : inject_Z (2 * k) == 2 * inject_Z k)
    by (rewrite inject_Z_mult; reflexivity).
  split.
  - intros [H1 H2].
    assert (A : (2 * k + -1 <= n)%Z) by (apply inject_Z_lt_succ; lra).
    apply Hz in A. split; lra.
  - intros [H1 H2].
    assert (A : (2 * k + -1 <= n)%Z).
    { assert (H : inject_Z (2 * k + -1) <= avg * 2 + (1 # 2)) by lra.
      apply Qfloor_resp_le in H. rewrite Qfloor_Z in H. exact H. }
    assert (B : (n <= 2 * k)%Z) by (apply inject_Z_lt_succ; lra).
    apply Hz in A, B. split; lra.
Qed.

Lemma is_number_ceil_halfStar (avg : Q) (k : Z) :
  is_number (Math_ceil (halfStar avg)) (inject_Z k) = true <->
  inject_Z k - (3 # 4) <= avg /\ avg < inject_Z k + (1 # 4).
Proof. unfold is_number. rewrite Qeq_bool_iff. apply ceil_halfStar_iff. Qed.

(** X5: the overall rating is drawn in the colour of its half star rounded
    up: green from an average of 4.25 up to (not including) 5.25, blue from
    3.25, yellow from 2.25, orange from 1.25, and red below 1.25 as well as
    from 5.25 on. *)
Theorem overallStarColor_thresholds (avg : Q) :
  (overallStarColor avg = "text-green-600" <-> 17 # 4 <= avg < 21 # 4) /\
  (overallStarColor avg = "text-blue-600" <-> 13 # 4 <= avg < 17 # 4) /\
  (overallStarColor avg = "text-yellow-600" <-> 9 # 4 <= avg < 13 # 4) /\
  (overallStarColor avg = "text-orange-600" <-> 5 # 4 <= avg < 9 # 4) /\
  (overallStarColor avg = "text-red-600" <-> avg < 5 # 4 \/ 21 # 4 <= avg).
Proof.
  unfold overallStarColor, starColor.
  pose proof (is_number_ceil_halfStar avg 5) as H5.
  pose proof (is_number_ceil_halfStar avg 4) as H4.
  pose proof (is_number_ceil_halfStar avg 3) as H3.
  pose proof (is_number_ceil_halfStar avg 2) as H2.
  change (inject_Z 5) with 5 in H5. change (inject_Z 4) with 4 in H4.
  change (inject_Z 3) with 3 in H3. change (inject_Z 2) with 2 in H2.
  destruct (is_number (Math_ceil (halfStar avg)) 5);
  destruct (is_number (Math_ceil (halfStar avg)) 4);
  destruct (is_number (Math_ceil (halfStar avg)) 3);
  destruct (is_number (Math_ceil (halfStar avg)) 2);
    repeat match goal with
           | H : true = true <-> _ |- _ => destruct (proj1 H eq_refl); clear H
           | H : false = true <-> _ |- _ =>
               assert (~ _) by (intros ?; discriminate (proj2 H ltac:(eassumption)));
               clear H
           end;
    repeat split; intros; try discriminate; try reflexivity; try lra.
Qed.

(** ** The band text and the classifier *)

Lemma string_app_assoc (s1 s2 s3 : string) : (s1 +:+ s2) +:+ s3 = s1 +:+ (s2 +:+ s3).
Proof.
  induction s1 as [|a s1 IH]; [reflexivity|].
  change (String a ((s1 +:+ s2) +:+ s3) = String a (s1 +:+ (s2 +:+ s3))).
  f_equal. exact IH.
Qed.

(** the text is the bounds written out *)
Lemma getBandRange_bounds showNumber starRating cutpoints lib :
  getBandRange showNumber starRating cutpoints lib
  = showBounds showNumber (bandBounds starRating cutpoints lib).
Proof.
  destruct cutpoints as [cp|]; [|reflexivity].
  unfold getBandRange, bandBounds, tierOf, tierBounds.
  destruct lib;
    repeat match goal with
           | |- context [is_number ?a ?b] => destruct (is_number a b)
           end;
    destruct (cut_5 cp), (cut_4 cp), (cut_3 cp), (cut_2 cp);
    cbn [fmap option_fmap option_map showBounds showBound];
    rewrite ?string_app_assoc; reflexivity.
Qed.

Lemma reached_Some_true lib v c :
  reached lib v (Some c) = true <-> if lib then v <= c else c <= v.
Proof. unfold reached. destruct lib; [apply JS_le_iff|apply JS_ge_iff]. Qed.

Lemma reached_Some_false lib v c :
  reached lib v (Some c) = false <-> if lib then c < v else v < c.
Proof.
  pose proof (reached_Some_true lib v c) as H.
  destruct (reached lib v (Some c)); destruct lib; split; intros; try discriminate;
    try reflexivity; try (exfalso; assert (Hc : true = true) by reflexivity;
                          apply H in Hc; lra);
    try (apply Qnot_le_lt; intros Hc; apply H in Hc; discriminate).
Qed.

Ltac reached_facts :=
  repeat match goal with
         | H : reached _ _ (Some _) = true |- _ => apply reached_Some_true in H
         | H : reached _ _ (Some _) = false |- _ => apply reached_Some_false in H
         end.

Lemma tierOf_literal :
  tierOf 5 = 5%nat /\ tierOf 4 = 4%nat /\ tierOf 3 = 3%nat /\
  tierOf 2 = 2%nat /\ tierOf 1 = 1%nat.
Proof. repeat split. Qed.

(** X6: whatever the cutpoints, a value meets every bound of the band text
    shown for the rating the classifier gives it. *)
Theorem value_in_band_of_its_rating
    (showNumber : Q -> string) (v : Q) (cp : ContractCutpoints) (lib : bool) :
  let star := calcStarFromPerformance v (Some cp) lib in
  getBandRange showNumber star (Some cp) lib
    = showBounds showNumber (bandBounds star (Some cp) lib) /\
  Forall (meets v) (bandBounds star (Some cp) lib).
Proof.
  cbv zeta. split; [apply getBandRange_bounds|].
  rewrite calcStar_chain. unfold bandBounds.
  destruct (cut_5 cp) as [c5|] eqn:E5, (cut_4 cp) as [c4|] eqn:E4,
           (cut_3 cp) as [c3|] eqn:E3, (cut_2 cp) as [c2|] eqn:E2;
    repeat match goal with
           | |- context [reached lib v (Some ?c)] =>
               let E := fresh "R" in destruct (reached lib v (Some c)) eqn:E
           end;
    cbn [reached];
    match goal with
    | |- context [tierOf ?k] =>
        change (tierOf k) with 5%nat || change (tierOf k) with 4%nat ||
        change (tierOf k) with 3%nat || change (tierOf k) with 2%nat ||
        change (tierOf k) with 1%nat
    end;
    unfold tierBounds; rewrite ?E5, ?E4, ?E3, ?E2; reached_facts;
    destruct lib; cbn [fmap option_fmap option_map];
    repeat (apply List.Forall_cons; [simpl; lra|]); apply List.Forall_nil.
Qed.

Lemma tierOf_comp (s t : Q) : s == t -> tierOf s = tierOf t.
Proof.
  intros H. unfold tierOf, is_number.
  assert (E : forall k, Qeq_bool s k = Qeq_bool t k).
  { intros k. destruct (Qeq_bool t k) eqn:Et.
    - apply Qeq_bool_iff. apply Qeq_bool_iff in Et. lra.
    - destruct (Qeq_bool s k) eqn:Es; [|reflexivity].
      apply Qeq_bool_iff in Es. apply Qeq_bool_neq in Et. lra. }
  rewrite !E. reflexivity.
Qed.

(** X7: when the four thresholds are present and ordered in the direction
    of the measure, the bands of the ratings 1 to 5 are exactly the classes
    of the classifier: a value meets the band text of an assigned rating if
    and only if the adjustment flag is not raised.  A rating other than
    2, 3, 4, 5 is given the band text of rating 1. *)
Theorem band_iff_not_adjusted
    (showNumber : Q -> string) (v s : Q) (cp : ContractCutpoints) (lib : bool) :
  orderedCutpoints lib cp ->
  (s == 1 \/ s == 2 \/ s == 3 \/ s == 4 \/ s == 5 ->
   (Forall (meets v) (bandBounds s (Some cp) lib) <->
    isOutsideBand v s (Some cp) lib = false)) /\
  (~ s == 5 -> ~ s == 4 -> ~ s == 3 -> ~ s == 2 ->
   getBandRange showNumber s (Some cp) lib = getBandRange showNumber 1 (Some cp) lib).
Proof.
  intros (c2 & c3 & c4 & c5 & E2 & E3 & E4 & E5 & Hord). split.
  - intros Hs.
    assert (Ht : exists k : Q, s == k /\ tierOf s = tierOf k /\
                               (k = 1 \/ k = 2 \/ k = 3 \/ k = 4 \/ k = 5)).
    { destruct Hs as [H|[H|[H|[H|H]]]]; eexists; (split; [exact H|]);
        (split; [apply tierOf_comp; exact H|]); tauto. }
    destruct Ht as (k & Hk & Htier & Hcases).
    unfold bandBounds, isOutsideBand. rewrite Htier, calcStar_chain, E2, E3, E4, E5.
    unfold JS.strict_ne. rewrite negb_false_iff, Qeq_bool_iff.
    destruct (reached lib v (Some c5)) eqn:R5, (reached lib v (Some c4)) eqn:R4,
             (reached lib v (Some c3)) eqn:R3, (reached lib v (Some c2)) eqn:R2;
      reached_facts;
      destruct Hcases as [->|[->|[->|[->| ->]]]];
      change (tierOf 1) with 1%nat; change (tierOf 2) with 2%nat;
      change (tierOf 3) with 3%nat; change (tierOf 4) with 4%nat;
      change (tierOf 5) with 5%nat;
      unfold tierBounds; rewrite ?E2, ?E3, ?E4, ?E5;
      destruct lib; cbn [fmap option_fmap option_map];
      rewrite ?Forall_cons, ?Forall_nil; cbn [meets];
      split; intros; try lra; try (repeat split; lra).
  - intros N5 N4 N3 N2.
    unfold getBandRange, is_number.
    assert (F : forall k, ~ s == k -> Qeq_bool s k = false).
    { intros k Hk. destruct (Qeq_bool s k) eqn:E; [|reflexivity].
      apply Qeq_bool_iff in E. contradiction. }
    rewrite !F by assumption. destruct lib; reflexivity.
Qed.

Lemma band_iff_not_adjusted_witness :
  Forall (meets 88) (bandBounds 4 (Some cp_60_70_80_90) false) <->
  isOutsideBand 88 4 (Some cp_60_70_80_90) false = false.
Proof.
  apply (band_iff_not_adjusted (fun _ => "") 88 4 cp_60_70_80_90 false).
  - exists 60, 70, 80, 90. repeat split; unfold Qle; simpl; lia.
  - right. right. right. left. reflexivity.
Defined.

Example band_text_80_90 :
  getBandRange (fun q => pretty (Qfloor q)) 4 (Some cp_60_70_80_90) false
  = "≥80% to <90%".
Proof. vm_compute. reflexivity. Qed.

(** ** Simulating a better value than the latest one *)

(** X8: for a row whose assigned rating is not flagged as adjusted, entering
    a value at least as good as the latest one never shows a downward
    arrow: the output cell reports no change or an upward one. *)
Theorem better_value_no_down_arrow
    (data : ContractPerformanceData) (m : ContractMeasureRow)
    (simValues : gmap string (option Q)) (v v' : Q) (band : ContractBandPosition) :
  in_2026 m = true ->
  outsideBand data m = Some false ->
  latestValue data m = Some v ->
  latest_band m = Some band ->
  (if lower_is_better m then v' <= v else v <= v') ->
  enteredSimValue simValues (measure_key m) = Some v' ->
  exists simStar,
    star_rating band <= simStar /\
    (simOutputCell simValues m = CellStar simStar None \/
     simOutputCell simValues m = CellStar simStar (Some (true, star_rating band))).
Proof.
  intros Hin Hout Hv Hband Hbetter Hsim.
  unfold outsideBand in Hout. rewrite Hband, Hv in Hout.
  destruct (cutpoints m) as [cp|] eqn:Hcp; [|discriminate].
  assert (Hs : JS.strict_ne (calcStarFromPerformance v (Some cp) (lower_is_better m))
                            (star_rating band) = false)
    by (injection Hout as Hout; exact Hout).
  assert (Heq : calcStarFromPerformance v (Some cp) (lower_is_better m) == star_rating band).
  { destruct (Qeq_dec (calcStarFromPerformance v (Some cp) (lower_is_better m))
                      (star_rating band)) as [H|H]; [exact H|].
    apply JS_strict_ne_iff in H. congruence. }
  pose proof (calcStar_better (lower_is_better m) v v' (Some cp) Hbetter) as Hle.
  exists (calcStarFromPerformance v' (Some cp) (lower_is_better m)).
  split; [lra|].
  unfold simOutputCell. rewrite Hin, Hcp, Hsim, Hband. cbv zeta.
  cbn [calcStarOfSimValue].
  destruct (JS.truthy (star_rating band) && JS.strict_ne _ (star_rating band)) eqn:Hch;
    [right|left; reflexivity].
  apply andb_true_iff in Hch as [_ Hne]. apply JS_strict_ne_iff in Hne.
  assert (Hgt : JS.gt (calcStarFromPerformance v' (Some cp) (lower_is_better m))
                      (star_rating band) = true) by (apply JS_gt_iff; lra).
  rewrite Hgt. reflexivity.
Qed.

Lemma better_value_no_down_arrow_witness :
  exists simStar,
    4 <= simStar /\
    (simOutputCell {[ "M" := Some 93 ]} unadjusted_row = CellStar simStar None \/
     simOutputCell {[ "M" := Some 93 ]} unadjusted_row = CellStar simStar (Some (true, 4))).
Proof.
  apply (better_value_no_down_arrow (contract [unadjusted_row]) unadjusted_row
           {[ "M" := Some 93 ]} 88 93 {| band_year := 2026; star_rating := 4 |});
    try (vm_compute; reflexivity).
  simpl. unfold Qle; simpl; lia.
Defined.

(** ** The latest year *)

Lemma fold_left_max_ge (ys : list Z) : forall y,
  (y <= fold_left Z.max ys y)%Z /\ Forall (fun y' => (y' <= fold_left Z.max ys y)%Z) ys.
Proof.
  induction ys as [|a ys IH]; intros y; simpl; [split; [lia|constructor]|].
  destruct (IH (Z.max y a)) as [H1 H2]. split; [lia|].
  constructor; [lia|exact H2].
Qed.

Lemma fold_left_max_in (ys : list Z) : forall y,
  fold_left Z.max ys y = y \/ fold_left Z.max ys y ∈ ys.
Proof.
  induction ys as [|a ys IH]; intros y; simpl; [left; reflexivity|].
  destruct (IH (Z.max y a)) as [H|H].
  - rewrite H. destruct (Z.max_spec y a) as [[_ ->]|[_ ->]];
      [right; left|left; reflexivity].
  - right. right. exact H.
Qed.

(** X9: the latest year of a contract is the greatest of its years,
    wherever it stands in the list, and there is none exactly when the
    list is empty; the latest value is then absent. *)
Theorem latestYear_greatest (data : ContractPerformanceData) :
  (latestYear data = None <-> years data = []) /\
  (forall y, latestYear data = Some y ->
     y ∈ years data /\ Forall (fun y' => (y' <= y)%Z) (years data)) /\
  (years data = [] -> forall m, latestValue data m = None).
Proof.
  unfold latestValue, latestYear. destruct (years data) as [|a ys].
  - repeat split; try discriminate; reflexivity.
  - split; [split; discriminate|]. split; [|discriminate].
    intros y [= <-]. destruct (fold_left_max_ge ys a) as [H1 H2]. split.
    + destruct (fold_left_max_in ys a) as [->|H]; [left|right; exact H].
    + constructor; assumption.
Qed.

Lemma latestYear_greatest_witness :
  2026%Z ∈ [2024%Z; 2026%Z; 2025%Z] /\
  Forall (fun y' => (y' <= 2026)%Z) [2024%Z; 2026%Z; 2025%Z].
Proof.
  apply (latestYear_greatest
           {| years := [2024%Z; 2026%Z; 2025%Z]; measures := [];
              yearly_weighted_avgs := None |}).
  reflexivity.
Defined.

(** * The cutpoint chart *)

Module ChartFacts.
Import Chart.

Lemma fold_min2_le (vs : list Q) : forall v,
  fold_left min2 vs v <= v /\ Forall (fun x => fold_left min2 vs v <= x) vs.
Proof.
  induction vs as [|a vs IH]; intros v; simpl; [split; [lra|constructor]|].
  destruct (IH (min2 v a)) as [H1 H2].
  assert (Hm : min2 v a <= v /\ min2 v a <= a).
  { unfold min2. destruct (Qle_bool v a) eqn:E.
    - apply Qle_bool_iff in E. split; lra.
    - split; [|lra]. destruct (Qlt_le_dec a v) as [H|H]; [lra|].
      apply Qle_bool_iff in H. congruence. }
  split; [lra|]. constructor; [lra|exact H2].
Qed.

Lemma fold_max2_ge (vs : list Q) : forall v,
  v <= fold_left max2 vs v /\ Forall (fun x => x <= fold_left max2 vs v) vs.
Proof.
  induction vs as [|a vs IH]; intros v; simpl; [split; [lra|constructor]|].
  destruct (IH (max2 v a)) as [H1 H2].
  assert (Hm : v <= max2 v a /\ a <= max2 v a).
  { unfold max2. destruct (Qle_bool v a) eqn:E.
    - apply Qle_bool_iff in E. split; lra.
    - split; [lra|]. destruct (Qlt_le_dec a v) as [H|H]; [lra|].
      apply Qle_bool_iff in H. congruence. }
  split; [lra|]. constructor; [lra|exact H2].
Qed.

Lemma minVal_maxVal (vs : list Q) :
  minVal vs <= maxVal vs /\ Forall (fun x => minVal vs <= x /\ x <= maxVal vs) vs.
Proof.
  destruct vs as [|v vs]; [split; [unfold Qle; simpl; lia|constructor]|].
  cbn [minVal maxVal].
  destruct (fold_min2_le vs v) as [H1 H2]. destruct (fold_max2_ge vs v) as [H3 H4].
  split; [lra|]. constructor; [split; assumption|].
  rewrite Forall_forall in H2, H4. apply Forall_forall. intros x Hx.
  split; [apply H2|apply H4]; exact Hx.
Qed.

Lemma padding_pos (vs : list Q) : 0 < padding vs.
Proof.
  unfold padding, range, JS.truthy.
  destruct (minVal_maxVal vs) as [Hle _].
  destruct (Qeq_bool (maxVal vs - minVal vs) 0) eqn:E; simpl.
  - reflexivity.
  - apply Qeq_bool_neq in E. lra.
Qed.

Lemma hasData_values (points : list (Z * option Q)) :
  hasData points = false <-> values points = [].
Proof.
  unfold hasData, values.
  induction points as [|[y [v|]] ps IH]; simpl; [tauto|split; discriminate|exact IH].
Qed.

(** X10: the chart area shows a line chart exactly when some year has a
    value, and the "no data" text otherwise; every value plotted lies
    strictly inside the Y axis of that chart: above the integer lower end
    and below the integer upper end of the domain, which are given in
    reverse order when lower is better. *)
Theorem yDomain_contains_values
    (measure : CutpointsMeasure) (starLevel : StarLevel) (years : list Z) :
  let points := chartData measure starLevel years in
  let vs := values points in
  let lo := Math_floor (minVal vs - padding vs) in
  let hi := Math_ceil (maxVal vs + padding vs) in
  yDomain measure vs = (if lower_is_better measure then (hi, lo) else (lo, hi)) /\
  lo < hi /\
  (forall year v, (year, Some v) ∈ points ->
     chartArea measure points = LineChart (yDomain measure vs) /\ lo < v /\ v < hi) /\
  ((forall year v, (year, Some v) ∉ points) -> chartArea measure points = NoCutpointData).
Proof.
  cbv zeta. set (points := chartData measure starLevel years).
  set (vs := values points).
  pose proof (padding_pos vs) as Hpad.
  destruct (minVal_maxVal vs) as [Hle Hall].
  destruct (Qfloor_bounds (minVal vs - padding vs)) as [Hf _].
  pose proof (Qle_ceiling (maxVal vs + padding vs)) as Hc.
  unfold Math_floor, Math_ceil.
  split; [unfold yDomain; destruct (lower_is_better measure); reflexivity|].
  split; [lra|]. split.
  - intros year v Hin.
    assert (Hv : v ∈ vs).
    { unfold vs, values. apply list_elem_of_omap. exists (year, Some v). split; [exact Hin|reflexivity]. }
    split.
    + unfold chartArea. destruct (hasData points) eqn:E; [reflexivity|].
      apply hasData_values in E. fold vs in E. rewrite E in Hv.
      apply elem_of_nil in Hv. destruct Hv.
    + rewrite Forall_forall in Hall. destruct (Hall v Hv). split; lra.
  - intros Hno. unfold chartArea. destruct (hasData points) eqn:E; [|reflexivity].
    unfold hasData in E. apply existsb_exists in E. destruct E as ([y [v|]] & Hin & Hv).
    + apply list_elem_of_In in Hin. destruct (Hno y v Hin).
    + simpl in Hv. discriminate.
Qed.

Lemma yDomain_contains_values_witness :
  let points := chartData sample_measure Level4 [2023%Z; 2024%Z; 2025%Z] in
  let vs := values points in
  chartArea sample_measure points = LineChart (yDomain sample_measure vs) /\
  Math_floor (minVal vs - padding vs) < 9 /\ 9 < Math_ceil (maxVal vs + padding vs).
Proof.
  cbv zeta.
  destruct (yDomain_contains_values sample_measure Level4 [2023%Z; 2024%Z; 2025%Z])
    as (_ & _ & H & _).
  apply (H 2024%Z 9). apply list_elem_of_In. vm_compute. right. left. reflexivity.
Defined.

Example chartArea_no_data :
  chartArea sample_measure (chartData sample_measure Level4 [2019%Z]) = NoCutpointData.
Proof. vm_compute. reflexivity. Qed.

Example yDomain_sample :
  yDomain sample_measure (values (chartData sample_measure Level4 [2023%Z; 2024%Z; 2025%Z]))
  = (inject_Z 10, inject_Z 7).
Proof. vm_compute. reflexivity. Qed.

(** ** The enrollment row under the chart *)

Lemma indexOf_spec (arr : list Z) (x : Z) :
  ((x ∉ arr) /\ indexOf arr x = (-1)%Z) \/
  (exists i : nat, indexOf arr x = Z.of_nat i /\ arr !! i = Some x /\
                   forall j, (j < i)%nat -> arr !! j <> Some x).
Proof.
  induction arr as [|y arr IH]; [left; split; [apply not_elem_of_nil|reflexivity]|].
  cbn [indexOf]. destruct (y =? x)%Z eqn:E.
  - apply Z.eqb_eq in E. subst. right. exists 0%nat.
    split; [reflexivity|]. split; [reflexivity|]. intros j Hj. lia.
  - apply Z.eqb_neq in E. destruct IH as [[Hn ->]|(i & -> & Hi & Hmin)].
    + left. split; [|reflexivity]. apply not_elem_of_cons. split; [congruence|exact Hn].
    + right. exists (S i). destruct (Z.of_nat i <? 0)%Z eqn:El; [apply Z.ltb_lt in El; lia|].
      split; [lia|]. split; [exact Hi|].
      intros [|j] Hj; simpl; [congruence|]. apply Hmin. lia.
Qed.

Lemma omap_lookup_all {A B : Type} (f : A -> option B) (l : list A) : forall g : list B,
  (forall k y, l !! k = Some y -> f y = g !! k) ->
  length g = length l ->
  omap f l = g.
Proof.
  induction l as [|a l IH]; intros g Hf Hlen.
  - destruct g; [reflexivity|discriminate].
  - destruct g as [|p g]; [discriminate|].
    cbn [omap list_omap]. rewrite (Hf 0%nat a eq_refl). cbn [lookup list_lookup].
    f_equal. apply IH; [|simpl in Hlen; lia].
    intros k y Hk. apply (Hf (S k) y Hk).
Qed.

Lemma pctOf_lookup (data : MeasureEnrollmentTimeseries) (k : nat) (y : Z) :
  NoDup (years data) -> years data !! k = Some y ->
  pctOf data y = fourplus_pct data !! k.
Proof.
  intros Hnd Hk. unfold pctOf, enrollmentCell.
  destruct (indexOf_spec (years data) y) as [[Hn _]|(i & -> & Hi & _)].
  - apply list_elem_of_lookup_2 in Hk. contradiction.
  - assert (i = k) by (eapply NoDup_lookup; eassumption). subst i.
    destruct (0 <=? Z.of_nat k)%Z eqn:E; [|apply Z.leb_gt in E; lia].
    rewrite Nat2Z.id. destruct (fourplus_pct data !! k); reflexivity.
Qed.

(** X11: the enrollment row shows, for a year, the percentage and count
    that stand at the first position of that year in the enrollment data,
    and a dash for a year the data does not have or whose percentage is
    missing; when the years of the data are distinct and every year has a
    percentage, the cells of these years are the percentages in order. *)
Theorem enrollmentCell_spec (data : MeasureEnrollmentTimeseries) (year : Z) :
  ((year ∉ years data) -> enrollmentCell (Some data) year = None) /\
  (forall cell, enrollmentCell (Some data) year = Some cell ->
     exists i : nat,
       years data !! i = Some year /\
       (forall j, (j < i)%nat -> years data !! j <> Some year) /\
       fourplus_pct data !! i = Some (fst cell) /\
       snd cell = fourplus_enrollment data !! i) /\
  (NoDup (years data) -> length (fourplus_pct data) = length (years data) ->
   omap (pctOf data) (years data) = fourplus_pct data).
Proof.
  split; [|split].
  - unfold enrollmentCell. intros Hn.
    destruct (indexOf_spec (years data) year) as [[_ ->]|(i & _ & Hi & _)];
      [reflexivity|]. apply list_elem_of_lookup_2 in Hi. contradiction.
  - unfold enrollmentCell. intros cell.
    destruct (indexOf_spec (years data) year) as [[_ ->]|(i & -> & Hi & Hmin)];
      [discriminate|].
    destruct (0 <=? Z.of_nat i)%Z; [|discriminate]. rewrite Nat2Z.id.
    destruct (fourplus_pct data !! i) as [pct|] eqn:Ep; [|discriminate].
    intros [= <-]. exists i. repeat split; assumption.
  - intros Hnd Hlen. apply omap_lookup_all; [|exact Hlen].
    intros k y Hk. apply pctOf_lookup; assumption.
Qed.

Lemma enrollmentCell_spec_witness :
  omap (pctOf sample_enrollment) (years sample_enrollment) = fourplus_pct sample_enrollment.
Proof.
  apply (enrollmentCell_spec sample_enrollment 2024).
  - vm_compute. repeat constructor; intros H; inversion H; subst;
      repeat match goal with H' : _ ∈ _ |- _ => inversion H'; subst; clear H' end.
  - reflexivity.
Defined.

End ChartFacts.

(** * The measure performance table *)

Module PerfFacts.
Import Perf.

Lemma yoyBadge_flip (lib : bool) (d : Q) :
  yoyBadge (negb lib) d = flipBadge <$> yoyBadge lib d.
Proof.
  unfold yoyBadge. destruct (JS.ge (Qabs d) (5 # 100)) eqn:Hge; [|reflexivity].
  cbn [fmap option_fmap option_map]. unfold flipBadge. cbn [colour plus change].
  f_equal. f_equal.
  destruct (JS.gt (1 # 10) (Qabs d)) eqn:Hsmall; [reflexivity|].
  assert (Hbig : 1 # 10 <= Qabs d).
  { destruct (Qlt_le_dec (Qabs d) (1 # 10)) as [H|H]; [|exact H].
    apply JS_gt_iff in H. congruence. }
  assert (Hnz : d < 0 \/ 0 < d).
  { destruct (Qabs_cases d) as [[? E]|[? E]]; rewrite E in Hbig; [right|left]; lra. }
  destruct (JS.gt 0 d) eqn:Hneg, (JS.gt d 0) eqn:Hpos;
    try apply JS_gt_iff in Hneg; try apply JS_gt_iff in Hpos;
    destruct lib; cbn [negb flipColour]; try reflexivity; exfalso.
  all: try lra.
  all: destruct Hnz as [H|H]; apply JS_gt_iff in H; congruence.
Qed.

Lemma yearCell_flip measure years yearIdx year :
  yearCell (flipDirection measure) years yearIdx year
  = flipCell (yearCell measure years yearIdx year).
Proof.
  unfold yearCell.
  change (valueOf (flipDirection measure) year) with (valueOf measure year).
  change (prevValue (flipDirection measure) years yearIdx)
    with (prevValue measure years yearIdx).
  destruct (valueOf measure year) as [v|]; [|reflexivity].
  destruct (prevValue measure years yearIdx) as [pv|]; [|reflexivity].
  cbn [flipCell flipDirection lower_is_better]. rewrite yoyBadge_flip. reflexivity.
Qed.

(** X12: reading a measure in the opposite direction (lower is better
    instead of higher, or back) leaves every cell of its row as it is but
    for the colour of the change: green and red are exchanged, gray stays. *)
Theorem yearCells_flip_direction (measure : MeasurePerformanceRow) (years : list Z) :
  yearCells (flipDirection measure) years = flipCell <$> yearCells measure years.
Proof.
  unfold yearCells. rewrite fmap_imap. apply imap_ext. intros i year _.
  apply yearCell_flip.
Qed.

Lemma JS_gt_false_iff x y : JS.gt x y = false <-> x <= y.
Proof.
  split.
  - intros H. apply Qnot_lt_le. intros Hlt. apply JS_gt_iff in Hlt. congruence.
  - intros H. destruct (JS.gt x y) eqn:E; [|reflexivity]. apply JS_gt_iff in E. lra.
Qed.

Lemma JS_ge_false_iff x y : JS.ge x y = false <-> x < y.
Proof.
  split.
  - intros H. apply Qnot_le_lt. intros Hle. apply JS_ge_iff in Hle. congruence.
  - intros H. destruct (JS.ge x y) eqn:E; [|reflexivity]. apply JS_ge_iff in E. lra.
Qed.

(** X13: a change line is only shown from the second column on, under a
    value whose previous year (not the year 0) has a value too; the change
    is the value minus the previous one and is at least 0.05 in absolute
    value; gray is for a change below 0.1; green always goes with a move in
    the direction of the measure and red with a move against it; [+] is put
    exactly in front of an increase. *)
Theorem yearCell_change_line
    (measure : MeasurePerformanceRow) (years : list Z) (yearIdx : nat) (year : Z)
    (v : Q) (b : Badge) :
  yearCell measure years yearIdx year = Value v (Some b) ->
  exists (i : nat) (y : Z) (pv : Q),
    yearIdx = S i /\ years !! i = Some y /\ y <> 0%Z /\
    valueOf measure year = Some v /\ valueOf measure y = Some pv /\
    change b = v - pv /\
    5 # 100 <= Qabs (change b) /\
    (colour b = Gray <-> Qabs (change b) < 1 # 10) /\
    (colour b = Green -> if lower_is_better measure then v < pv else pv < v) /\
    (colour b = Red -> if lower_is_better measure then pv < v else v < pv) /\
    (plus b = true <-> pv < v).
Proof.
  unfold yearCell, prevValue, prevYear.
  destruct (valueOf measure year) as [v0|] eqn:Ev; [|discriminate].
  destruct yearIdx as [|i]; [discriminate|].
  destruct (years !! i) as [y|] eqn:Ey; [|discriminate].
  destruct (y =? 0)%Z eqn:E0; [discriminate|]. apply Z.eqb_neq in E0.
  destruct (valueOf measure y) as [pv|] eqn:Ep; [|discriminate].
  intros [= -> Hb]. exists i, y, pv.
  repeat (split; [reflexivity || assumption|]).
  unfold yoyBadge in Hb.
  destruct (JS.ge (Qabs (v - pv)) (5 # 100)) eqn:Hge; [|discriminate].
  apply JS_ge_iff in Hge.
  destruct (JS.gt (1 # 10) (Qabs (v - pv))) eqn:Hsmall;
    try apply JS_gt_iff in Hsmall; try apply JS_gt_false_iff in Hsmall;
    destruct (lower_is_better measure);
    destruct (JS.gt 0 (v - pv)) eqn:Hneg; destruct (JS.gt (v - pv) 0) eqn:Hpos;
    try apply JS_gt_iff in Hneg; try apply JS_gt_false_iff in Hneg;
    try apply JS_gt_iff in Hpos; try apply JS_gt_false_iff in Hpos;
    injection Hb as <-; cbn [colour plus change];
    (split; [reflexivity|]); (split; [exact Hge|]);
    destruct (Qabs_cases (v - pv)) as [[Hs Ha]|[Hs Ha]];
    repeat split; intros; try discriminate; try reflexivity; try lra.
Qed.

Lemma yearCell_change_line_witness :
  exists (i : nat) (y : Z) (pv : Q),
    1%nat = S i /\ [2024%Z; 2025%Z] !! i = Some y /\ y <> 0%Z /\
    valueOf sample_row 2025 = Some (98 # 10) /\ valueOf sample_row y = Some pv /\
    (-70 # 100) = (98 # 10) - pv /\
    5 # 100 <= Qabs (-70 # 100) /\
    (Green = Gray <-> Qabs (-70 # 100) < 1 # 10) /\
    (Green = Green -> (98 # 10) < pv) /\
    (Green = Red -> pv < (98 # 10)) /\
    (false = true <-> pv < 98 # 10).
Proof.
  apply (yearCell_change_line sample_row [2024%Z; 2025%Z] 1 2025 (98 # 10)
           {| colour := Green; plus := false; change := -70 # 100 |}).
  vm_compute. reflexivity.
Defined.

End PerfFacts.

(** * The contract selector *)

Module SelectorFacts.
Import Selector.

Lemma includes_empty (s : string) : includes s "" = true.
Proof. unfold includes. destruct s; reflexivity. Qed.

(** X14: the dropdown lists at most 100 contracts, in the order of the
    contract list; none of them has an id starting with S and each matches
    the search text in its id or its parent organisation; with an empty
    search text every contract whose id does not start with S passes the
    filter. *)
Theorem shownContracts_spec
    (toLowerCase : string -> string)
    (contracts : list ContractListItem) (contractSearch : string) :
  (length (shownContracts toLowerCase contracts contractSearch) <= 100)%nat /\
  (shownContracts toLowerCase contracts contractSearch `sublist_of` contracts) /\
  (forall c, c ∈ shownContracts toLowerCase contracts contractSearch ->
     String.prefix "S" (contract_id c) = false /\
     matchesSearch toLowerCase contractSearch c = true) /\
  (toLowerCase "" = "" ->
   filteredContracts toLowerCase contracts ""
   = filter (fun c => String.prefix "S" (contract_id c) = false) contracts).
Proof.
  unfold shownContracts, filteredContracts. repeat split.
  - rewrite length_take. lia.
  - etransitivity; [apply sublist_take|].
    etransitivity; apply sublist_filter.
  - apply elem_of_take in H as (i & H & _). apply list_elem_of_lookup_2 in H.
    apply list_elem_of_filter in H as [_ H]. apply list_elem_of_filter in H. tauto.
  - apply elem_of_take in H as (i & H & _). apply list_elem_of_lookup_2 in H.
    apply list_elem_of_filter in H. tauto.
  - intros Hlow. set (l := filter _ contracts). clearbody l.
    induction l as [|c l IH]; [reflexivity|].
    rewrite filter_cons_True; [f_equal; exact IH|].
    unfold matchesSearch. rewrite Hlow, includes_empty. reflexivity.
Qed.

Lemma shownContracts_spec_witness :
  filteredContracts asciiLower sample_contracts ""
  = filter (fun c => String.prefix "S" (contract_id c) = false) sample_contracts.
Proof.
  apply (shownContracts_spec asciiLower sample_contracts "x"). reflexivity.
Defined.

Example shownContracts_sample :
  contract_id <$> shownContracts asciiLower sample_contracts "HUMANA" = ["H5216"].
Proof. vm_compute. reflexivity. Qed.

End SelectorFacts.

(** * The stars page *)

Module StarsFacts.
Import Stars.

Lemma filteredPayers_offered toLowerCase parent_orgs st p :
  p ∈ filteredPayers toLowerCase parent_orgs st ->
  (exists orgs, parent_orgs = Some orgs /\ p ∈ orgs) /\ p ∉ selectedPayers st.
Proof.
  unfold filteredPayers. destruct parent_orgs as [orgs|]; [|intros H; inversion H].
  intros H. apply elem_of_take in H as (i & H & _). apply list_elem_of_lookup_2 in H.
  apply list_elem_of_filter in H as [[_ Hsel] Hin]. split; [eauto|exact Hsel].
Qed.

(** X15: the payer popup offers at most 30 payers (15 while the search
    text is empty), all of them known and none of them selected; picking
    one of them keeps the selection free of duplicates, closes the popup,
    clears the search text, and the payer is not offered again. *)
Theorem popup_keeps_selection_distinct
    (toLowerCase : string -> string) (parent_orgs : option (list string))
    (st : PayerState) (p : string) :
  (length (filteredPayers toLowerCase parent_orgs st) <= 30)%nat /\
  (payerSearch st = "" -> (length (filteredPayers toLowerCase parent_orgs st) <= 15)%nat) /\
  (p ∈ filteredPayers toLowerCase parent_orgs st ->
   NoDup (selectedPayers st) ->
   NoDup (selectedPayers (addPayer p st)) /\
   showPayerPopup (addPayer p st) = false /\
   payerSearch (addPayer p st) = "" /\
   p ∉ filteredPayers toLowerCase parent_orgs (addPayer p st)).
Proof.
  split; [|split].
  - unfold filteredPayers. destruct parent_orgs; [|simpl; lia].
    rewrite length_take. destruct (decide _); lia.
  - intros Hs. unfold filteredPayers. destruct parent_orgs; [|simpl; lia].
    rewrite length_take, decide_True by exact Hs. lia.
  - intros Hin Hnd. apply filteredPayers_offered in Hin as [_ Hsel].
    split; [|split; [reflexivity|split; [reflexivity|]]].
    + cbn [addPayer selectedPayers]. apply NoDup_app. split; [exact Hnd|].
      split; [|apply NoDup_singleton].
      intros x Hx Hx'. apply list_elem_of_singleton in Hx'. subst. contradiction.
    + intros H. apply filteredPayers_offered in H as [_ H]. apply H.
      cbn [addPayer selectedPayers]. apply elem_of_app. right. apply list_elem_of_singleton.
      reflexivity.
Qed.

Lemma popup_keeps_selection_distinct_witness :
  NoDup (selectedPayers
           (addPayer "Humana Inc."
              {| selectedPayers := ["CVS Health"]; showPayerPopup := true;
                 payerSearch := "hum" |})).
Proof.
  apply (popup_keeps_selection_distinct asciiLower
           (Some ["CVS Health"; "Humana Inc."; "Centene Corporation"])
           {| selectedPayers := ["CVS Health"]; showPayerPopup := true;
              payerSearch := "hum" |} "Humana Inc.").
  - vm_compute. left.
  - apply NoDup_singleton.
Defined.

(** X16: removing a payer takes every occurrence of it out of the
    selection and leaves the other payers in their order, the popup and
    the search text as they are; removing a payer right after adding it
    gives back the selection there was, if the payer was not in it. *)
Theorem removePayer_spec (st : PayerState) (p : string) :
  (p ∉ selectedPayers (removePayer p st)) /\
  (forall q, q <> p -> (q ∈ selectedPayers (removePayer p st) <-> q ∈ selectedPayers st)) /\
  (selectedPayers (removePayer p st) `sublist_of` selectedPayers st) /\
  showPayerPopup (removePayer p st) = showPayerPopup st /\
  payerSearch (removePayer p st) = payerSearch st /\
  (p ∉ selectedPayers st ->
   selectedPayers (removePayer p (addPayer p st)) = selectedPayers st).
Proof.
  cbn [removePayer addPayer selectedPayers showPayerPopup payerSearch].
  split; [|split; [|split; [|split; [reflexivity|split; [reflexivity|]]]]].
  - intros H. apply list_elem_of_filter in H as [H _]. contradiction.
  - intros q Hq. rewrite list_elem_of_filter. tauto.
  - apply sublist_filter.
  - intros Hnot. rewrite filter_app, filter_cons_False, filter_nil, app_nil_r by tauto.
    induction (selectedPayers st) as [|q l IH]; [reflexivity|].
    apply not_elem_of_cons in Hnot as [Hne Hl].
    rewrite filter_cons_True by congruence. f_equal. apply IH. exact Hl.
Qed.

Lemma removePayer_spec_witness :
  selectedPayers
    (removePayer "Humana Inc."
       (addPayer "Humana Inc."
          {| selectedPayers := ["CVS Health"]; showPayerPopup := true;
             payerSearch := "hum" |}))
  = ["CVS Health"].
Proof.
  apply (removePayer_spec
           {| selectedPayers := ["CVS Health"]; showPayerPopup := true;
              payerSearch := "hum" |} "Humana Inc.").
  vm_compute. intros H. inversion H as [|? ? ? H']; subst. inversion H'.
Defined.

(** ** The year range of the distribution table *)

Lemma slice_from_end_drop {A : Type} (n : Z) (arr : list A) :
  (0 < n)%Z ->
  slice_from_end n arr = drop (Z.to_nat (Z.max 0 (Z.of_nat (length arr) - n))) arr.
Proof.
  intros Hn. unfold slice_from_end.
  destruct (- n <? 0)%Z eqn:E; [|apply Z.ltb_ge in E; lia].
  f_equal. lia.
Qed.

(** X17: for a year range that is not negative (null, 0 or the last [n]
    years), each column of a distribution row pairs a year with the entry
    of the band's series that stands at the position of that year in the
    full list of years; the number of columns is the range, or the number
    of years if that is smaller. *)
Theorem distributionRow_aligned
    (distribution : option (gmap string (list Q))) (bandKey : string)
    (distTimeYearRange : option Z) (distTimeYears : list Z) :
  (forall n, distTimeYearRange = Some n -> (0 <= n)%Z) ->
  (forall i year pct,
     distributionRow distribution bandKey distTimeYearRange distTimeYears !! i
       = Some (year, pct) ->
     exists j : nat,
       Z.of_nat j = (distTimeStartIdx distTimeYearRange distTimeYears + Z.of_nat i)%Z /\
       distTimeYears !! j = Some year /\
       pct = distributionAt distribution bandKey (Z.of_nat j)) /\
  (forall n, distTimeYearRange = Some n -> (0 < n)%Z ->
     length (distributionRow distribution bandKey distTimeYearRange distTimeYears)
     = Nat.min (Z.to_nat n) (length distTimeYears)).
Proof.
  intros Hrange. split.
  - intros i year pct. unfold distributionRow. rewrite list_lookup_imap.
    destruct (filteredDistTimeYears distTimeYearRange distTimeYears !! i) as [y|] eqn:Ey;
      [|discriminate].
    cbn [fmap option_fmap option_map]. intros [= <- <-].
    unfold filteredDistTimeYears, distTimeStartIdx in *.
    destruct distTimeYearRange as [n|].
    + specialize (Hrange n eq_refl). destruct (n =? 0)%Z eqn:E0.
      * exists i. split; [lia|]. split; [exact Ey|]. f_equal.
      * apply Z.eqb_neq in E0. rewrite slice_from_end_drop in Ey by lia.
        rewrite lookup_drop in Ey.
        exists (Z.to_nat (Z.max 0 (Z.of_nat (length distTimeYears) - n)) + i)%nat.
        split; [lia|]. split; [exact Ey|]. f_equal. lia.
    + exists i. split; [lia|]. split; [exact Ey|]. f_equal.
  - intros n -> Hn. unfold distributionRow, filteredDistTimeYears.
    rewrite length_imap. destruct (n =? 0)%Z eqn:E0; [apply Z.eqb_eq in E0; lia|].
    rewrite slice_from_end_drop by exact Hn. rewrite length_drop. lia.
Qed.

Lemma distributionRow_aligned_witness :
  length (distributionRow (Some {[ "4.5" := [10; 12; 15; 19] ]}) "4.5" (Some 3%Z)
            [2022%Z; 2023%Z; 2024%Z; 2025%Z])
  = Nat.min (Z.to_nat 3) (length [2022%Z; 2023%Z; 2024%Z; 2025%Z]).
Proof.
  apply (distributionRow_aligned (Some {[ "4.5" := [10; 12; 15; 19] ]}) "4.5" (Some 3%Z)
           [2022%Z; 2023%Z; 2024%Z; 2025%Z]).
  - intros n [= <-]. lia.
  - reflexivity.
  - lia.
Defined.

Example distributionRow_sample :
  distributionRow (Some {[ "4.5" := [10; 12; 15; 19] ]}) "4.5" (Some 3%Z)
    [2022%Z; 2023%Z; 2024%Z; 2025%Z]
  = [(2023%Z, Some 12); (2024%Z, Some 15); (2025%Z, Some 19)].
Proof. vm_compute. reflexivity. Qed.

End StarsFacts.
